(** * AI Screen Assistant: request pipeline, prompt builder, client, config

    A shallow embedding of the Python sources
    [ai/prompt_builder.py], [ai/github_ai_client.py], [config.py],
    [capture/screen_capture.py], [ui/overlay.py] and [main.py], and the
    properties of the specification that concern them.

    Python values that travel as JSON (message lists, request payloads,
    parsed response bodies) are modelled by one inductive type whose
    dictionaries are finite maps with string keys.  Exceptions are an error
    monad.  The threads of the application are modelled by the interleaving
    of the events the controlling context handles. *)

From Stdlib Require Import ZArith QArith Ascii String.
From stdpp Require Import base option list strings gmap.

Set Warnings "-register-all".

Local Open Scope Z_scope.
Local Open Scope string_scope.

(** ** Python values *)

Module Py.

(** A Python object as [json] produces and consumes it: [None], [bool],
    [int], [float], [str], [list], and [dict] with [str] keys. *)
Inductive value : Type :=
| VNone
| VBool (b : bool)
| VInt (z : Z)
| VFloat (q : Q)
| VStr (s : string)
| VList (l : list value)
| VDict (d : gmap string value).

(** Exception classes that the modelled code raises, catches or lets pass. *)
Inductive exn_class : Type :=
| ValueError
| KeyError
| IndexError
| TypeError
| HTTPStatusError
| RequestError
| OtherException (name : string).

(** An exception object: its class and [str(exc)]. *)
Record exn : Type := Exn { exn_cls : exn_class; exn_str : string }.

(** The outcome of running fallible code: a returned value or a raised
    exception. *)
Inductive result (A : Type) : Type :=
| Return (a : A)
| Raise (e : exn).
Arguments Return {A} a.
Arguments Raise {A} e.

(** Sequencing: a raised exception skips the rest.  With these instances
    [x ← r; k] is stdpp's notation for it. *)
#[export] Instance result_ret : MRet result := fun A a => Return a.
#[export] Instance result_bind : MBind result := fun A B k r =>
  match r with
  | Return a => k a
  | Raise e => Raise e
  end.

(** [try: r except classes: handler]. *)
Definition try_except {A} (r : result A) (catches : exn_class -> bool)
    (handler : exn -> result A) : result A :=
  match r with
  | Return a => Return a
  | Raise e => if catches (exn_cls e) then handler e else Raise e
  end.

Definition is_raise {A} (r : result A) : bool :=
  match r with Raise _ => true | Return _ => false end.

(** [obj[key]] with a [str] key. *)
Definition getitem_str (obj : value) (key : string) : result value :=
  match obj with
  | VDict d =>
      match d !! key with
      | Some v => Return v
      | None => Raise (Exn KeyError ("'" ++ key ++ "'"))
      end
  | VList _ =>
      Raise (Exn TypeError "list indices must be integers or slices, not str")
  | VStr _ => Raise (Exn TypeError "string indices must be integers, not 'str'")
  | VNone => Raise (Exn TypeError "'NoneType' object is not subscriptable")
  | VBool _ => Raise (Exn TypeError "'bool' object is not subscriptable")
  | VInt _ => Raise (Exn TypeError "'int' object is not subscriptable")
  | VFloat _ => Raise (Exn TypeError "'float' object is not subscriptable")
  end.

(** [obj[0]].  A dictionary decoded from JSON has only [str] keys, so the
    key [0] is never present. *)
Definition getitem_0 (obj : value) : result value :=
  match obj with
  | VList (v :: _) => Return v
  | VList [] => Raise (Exn IndexError "list index out of range")
  | VDict _ => Raise (Exn KeyError "0")
  | VStr (String c _) => Return (VStr (String c EmptyString))
  | VStr EmptyString => Raise (Exn IndexError "string index out of range")
  | VNone => Raise (Exn TypeError "'NoneType' object is not subscriptable")
  | VBool _ => Raise (Exn TypeError "'bool' object is not subscriptable")
  | VInt _ => Raise (Exn TypeError "'int' object is not subscriptable")
  | VFloat _ => Raise (Exn TypeError "'float' object is not subscriptable")
  end.

End Py.

Export Py.

(** The line feed of the Python literal [\n]. *)
Definition LF : string := String (Ascii.ascii_of_nat 10) EmptyString.

(** ** ai/prompt_builder.py *)

Module PromptBuilder.

Definition SYSTEM_PROMPT_VISION : string :=
  "You are an AI assistant. The user sends a screenshot containing questions. "
  ++ "Read, analyze, and answer each question accurately and concisely.".

Definition SYSTEM_PROMPT_TEXT : string :=
  "You are an AI assistant. The user provides extracted text from their screen. "
  ++ "Analyze and provide accurate answers.".

Definition DEFAULT_VISION_INSTRUCTION : string :=
  "Please read and answer all questions in this image.".

Definition DEFAULT_TEXT_INSTRUCTION : string :=
  "Please answer the questions above.".

(** A dictionary literal [{k1: v1, ...}]. *)
Definition dict (kvs : list (string * value)) : value :=
  VDict (list_to_map kvs).

(** [build_vision_messages(base64_image, user_instruction=...)]; an omitted
    instruction is [None]. *)
Definition build_vision_messages (base64_image : string)
    (user_instruction : option string) : value :=
  let user_instruction := default DEFAULT_VISION_INSTRUCTION user_instruction in
  VList [
    dict [("role", VStr "system"); ("content", VStr SYSTEM_PROMPT_VISION)];
    dict [("role", VStr "user");
          ("content", VList [
             dict [("type", VStr "image_url");
                   ("image_url",
                    dict [("url", VStr ("data:image/png;base64," ++ base64_image))])];
             dict [("type", VStr "text"); ("text", VStr user_instruction)]])]
  ].

(** [build_text_messages(extracted_text, user_instruction=...)]. *)
Definition build_text_messages (extracted_text : string)
    (user_instruction : option string) : value :=
  let user_instruction := default DEFAULT_TEXT_INSTRUCTION user_instruction in
  let user_content :=
    "Screen content:" ++ LF ++ LF ++ extracted_text ++ LF ++ LF ++ user_instruction in
  VList [
    dict [("role", VStr "system"); ("content", VStr SYSTEM_PROMPT_TEXT)];
    dict [("role", VStr "user"); ("content", VStr user_content)]
  ].

End PromptBuilder.

(** ** What the Python runtime and the libraries supply

    The sources call builtins and library methods whose results they do not
    control.  They are taken as parameters; every theorem below holds for
    all of them. *)

Class Runtime : Type := {
  (** [str(data)] as an f-string renders a decoded JSON value. *)
  str_value : value -> string;
  (** [s.strip()]. *)
  str_strip : string -> string;
  (** [int(s)]: the integer, or [None] where CPython raises [ValueError]
      (the only exception [int] raises on a [str]). *)
  int_of_str : string -> option Z;
  (** [traceback.format_exc()] while [exc] is being handled. *)
  format_exc : exn -> string;
  (** The message httpx gives the [HTTPStatusError] of a status code. *)
  status_error_message : Z -> string
}.

(** [int(s)] *)
Definition py_int `{Runtime} (s : string) : result Z :=
  match int_of_str s with
  | Some z => Return z
  | None => Raise (Exn ValueError ("invalid literal for int() with base 10: " ++ s))
  end.

(** [l[i]] on a list of strings, for an index [i >= 0]. *)
Definition getitem_nat {A} (l : list A) (i : nat) : result A :=
  match l !! i with
  | Some a => Return a
  | None => Raise (Exn IndexError "list index out of range")
  end.

(** [s.split(sep)] for a one-character separator. *)
Fixpoint str_split (sep : Ascii.ascii) (s : string) : list string :=
  match s with
  | EmptyString => [EmptyString]
  | String c s' =>
      if Ascii.eqb c sep then EmptyString :: str_split sep s'
      else match str_split sep s' with
           | hd :: tl => String c hd :: tl
           | [] => [String c EmptyString]
           end
  end.

(** ** config.py *)

Module Config.

(** [(x, y, width, height)] *)
Definition region : Type := Z * Z * Z * Z.

(** The process environment and [os.getenv(key, default)]. *)
Definition getenv (environ : gmap string string) (key default : string) : string :=
  match environ !! key with
  | Some v => v
  | None => default
  end.

Definition API_BASE_URL : string := "https://models.github.ai/inference".
Definition API_ENDPOINT : string := API_BASE_URL ++ "/chat/completions".
Definition TEMPERATURE : Q := 3 # 10.
Definition MAX_TOKENS : Z := 2000.

Section ParseRegion.
Context `{Runtime}.

(** [_parse_region(value)].  The result type keeps the exceptions the body
    could let escape. *)
Definition _parse_region (value : string) : result (option region) :=
  if decide (value = EmptyString) then Return None
  else
    let parts := str_strip <$> str_split ","%char value in
    if decide (length parts ≠ 4%nat) then Return None
    else
      try_except
        (p0 ← getitem_nat parts 0; n0 ← py_int p0;
         p1 ← getitem_nat parts 1; n1 ← py_int p1;
         p2 ← getitem_nat parts 2; n2 ← py_int p2;
         p3 ← getitem_nat parts 3; n3 ← py_int p3;
         Return (Some (n0, n1, n2, n3)))
        (fun c => match c with ValueError => true | _ => false end)
        (fun _ => Return None).

(** The module-level values read from the environment at import. *)
Record t : Type := {
  GITHUB_TOKEN : string;
  AI_MODEL : string;
  CAPTURE_REGION : result (option region)
}.

Definition load (environ : gmap string string) : t :=
  {| GITHUB_TOKEN := getenv environ "GITHUB_TOKEN" EmptyString;
     AI_MODEL := getenv environ "AI_MODEL" "openai/gpt-4o";
     CAPTURE_REGION := _parse_region (getenv environ "CAPTURE_REGION" EmptyString) |}.

End ParseRegion.

End Config.

(** ** The HTTP transport (httpx) *)

Module Http.

(** What [client.post(url, json=..., headers=...)] sends, with the
    client's timeout. *)
Record Request : Type := {
  req_url : string;
  req_json : value;
  req_headers : gmap string string;
  req_timeout : Q
}.

(** A response: its status, its body, and what [response.json()] gives
    (the decoded body, or the decoder's exception). *)
Record Response : Type := {
  status_code : Z;
  text : string;
  json : result value
}.

(** The network as one call sees it: a response, or a network-level
    failure (an [httpx.RequestError]). *)
Definition transport : Type := Request -> result Response.

(** Code that may use the network: it threads the list of the requests
    sent so far and may raise. *)
Definition io (A : Type) : Type := list Request -> result A * list Request.

#[export] Instance io_ret : MRet io := fun A a sent => (Return a, sent).
#[export] Instance io_bind : MBind io := fun A B k m sent =>
  match m sent with
  | (Return a, sent') => k a sent'
  | (Raise e, sent') => (Raise e, sent')
  end.

(** A pure outcome inside [io]. *)
Definition lift {A} (r : result A) : io A := fun sent => (r, sent).

(** [await client.post(...)]: one invocation of the transport. *)
Definition post (net : transport) (req : Request) : io Response :=
  fun sent => (net req, (sent ++ [req])%list).

(** [response.raise_for_status()]: raises unless the status is 2xx. *)
Definition raise_for_status `{Runtime} (response : Response) : result unit :=
  if bool_decide (200 ≤ status_code response ∧ status_code response ≤ 299)%Z
  then Return ()
  else Raise (Exn HTTPStatusError (status_error_message (status_code response))).

End Http.

Export Http.

(** ** ai/github_ai_client.py *)

Module GitHubAIClient.

Record t : Type := {
  _token : string;
  _model : string;
  _temperature : Q;
  _max_tokens : Z;
  _timeout : Q
}.

Definition _ENDPOINT : string := Config.API_ENDPOINT.

(** [a or b] where [a] is an optional string: [None] and the empty string
    are falsy. *)
Definition str_or (a : option string) (b : string) : string :=
  match a with
  | Some s => if decide (s = EmptyString) then b else s
  | None => b
  end.

Section Client.
Context `{Runtime}.

(** [GitHubAIClient(token, model, temperature, max_tokens, timeout)] with
    the module [config] as loaded. *)
Definition __init__ (config : Config.t) (token model : option string)
    (temperature : Q) (max_tokens : Z) (timeout : Q) : io t :=
  let self := {|
    _token := str_or token (Config.GITHUB_TOKEN config);
    _model := str_or model (Config.AI_MODEL config);
    _temperature := temperature;
    _max_tokens := max_tokens;
    _timeout := timeout |} in
  if decide (_token self = EmptyString) then
    lift (Raise (Exn ValueError
      ("GITHUB_TOKEN is not set. "
       ++ "Add it to your .env file or set it as an environment variable.")))
  else mret self.

(** [GitHubAIClient()], as [App.__init__] calls it. *)
Definition default_init (config : Config.t) : io t :=
  __init__ config None None Config.TEMPERATURE Config.MAX_TOKENS 60.

Definition _build_payload (self : t) (messages : value) : value :=
  PromptBuilder.dict [
    ("model", VStr (_model self));
    ("messages", messages);
    ("temperature", VFloat (_temperature self));
    ("max_tokens", VInt (_max_tokens self))
  ].

Definition _build_headers (self : t) : gmap string string :=
  list_to_map [
    ("Authorization", "Bearer " ++ _token self);
    ("Content-Type", "application/json")
  ].

(** [_call(messages)] *)
Definition _call (self : t) (net : transport) (messages : value) : io value :=
  let payload := _build_payload self messages in
  let headers := _build_headers self in
  data ← (response ← post net {| req_url := _ENDPOINT; req_json := payload;
                                   req_headers := headers;
                                   req_timeout := _timeout self |};
          _ ← lift (raise_for_status response);
          lift (json response));
  lift (try_except
          (choices ← getitem_str data "choices";
           choice ← getitem_0 choices;
           message ← getitem_str choice "message";
           getitem_str message "content")
          (fun c => match c with KeyError | IndexError => true | _ => false end)
          (fun exc => Raise (Exn ValueError
             ("Unexpected API response format: " ++ str_value data)))).

Definition answer_from_screenshot (self : t) (net : transport)
    (base64_image : string) : io value :=
  let messages := PromptBuilder.build_vision_messages base64_image None in
  _call self net messages.

Definition answer_from_text (self : t) (net : transport)
    (extracted_text : string) : io value :=
  let messages := PromptBuilder.build_text_messages extracted_text None in
  _call self net messages.

End Client.

End GitHubAIClient.

(** The specification's names for the failures of one run. *)
Inductive error_kind : Type :=
| ConfigurationError
| CaptureError
| ExtractionError
| TransportError
| RemoteError
| ProtocolError.

(** The kind of an exception that leaves the client's call: the docstrings
    of [answer_from_screenshot] name [httpx.HTTPStatusError] for a non-2xx
    response and [httpx.RequestError] for network-level failures; the
    [ValueError] is the one [_call] raises on an unexpected body. *)
Definition call_error_kind (e : exn) : option error_kind :=
  match exn_cls e with
  | HTTPStatusError => Some RemoteError
  | RequestError => Some TransportError
  | ValueError => Some ProtocolError
  | _ => None
  end.

(** ** capture/screen_capture.py *)

Module ScreenCapture.

(** An mss monitor dictionary. *)
Record monitor : Type := {
  left : Z;
  top : Z;
  width : Z;
  height : Z
}.

(** The capture object: [self._sct.monitors], where entry 1 is the primary
    monitor. *)
Record t : Type := { monitors : list monitor }.

(** The screen as one capture finds it: grabbing a monitor rectangle and
    encoding the pixels (PNG, then base64) gives a string, or the platform
    fails. *)
Definition platform : Type := monitor -> result string.

(** [_build_monitor(region)] *)
Definition _build_monitor (self : t) (region : option Config.region)
    : result monitor :=
  match region with
  | None => getitem_nat (monitors self) 1
  | Some (x, y, width, height) =>
      Return {| left := x; top := y; width := width; height := height |}
  end.

(** [capture_as_base64(region)]: the outcome, and the rectangles handed to
    [self._sct.grab]. *)
Definition capture_as_base64 (self : t) (screen : platform)
    (region : option Config.region) : result string * list monitor :=
  match _build_monitor self region with
  | Return monitor => (screen monitor, [monitor])
  | Raise e => (Raise e, [])
  end.

End ScreenCapture.

(** ** ui/overlay.py *)

Module OverlayWindow.

(** The state of the window the pipeline can observe or change: whether it
    is visible, and the text and style of the result label. *)
Record t : Type := {
  visible : bool;
  label_text : string;
  label_style : string
}.

Definition __init__ : t :=
  {| visible := false;
     label_text := "Ready. Press Ctrl+Shift+S to scan screen.";
     label_style := "color: #cccccc; font-size: 13px;" |}.

Definition isVisible (self : t) : bool := visible self.

Definition show (self : t) : t :=
  {| visible := true; label_text := label_text self;
     label_style := label_style self |}.

Definition hide (self : t) : t :=
  {| visible := false; label_text := label_text self;
     label_style := label_style self |}.

Definition LOADING_TEXT : string := "⏳ Analyzing screen…".

Definition set_label (text style : string) (self : t) : t :=
  let self := {| visible := visible self; label_text := text;
                 label_style := style |} in
  if negb (isVisible self) then show self else self.

Definition show_loading (self : t) : t :=
  set_label LOADING_TEXT "color: #aaaaaa; font-style: italic;" self.

Definition show_result (text : string) (self : t) : t :=
  set_label text "color: #ffffff;" self.

Definition show_error (message : string) (self : t) : t :=
  set_label ("❌ Error: " ++ message) "color: #ff6b6b;" self.

Definition toggle_visibility (self : t) : t :=
  if isVisible self then hide self else show self.

End OverlayWindow.

(** ** main.py *)

(** What the collaborators receive, in order: the calls [App] makes on the
    overlay, the rectangles grabbed, the threads started, the requests
    posted, and the exception that leaves a handler uncaught, which its
    caller (the hotkey listener) receives. *)
Inductive call : Type :=
| Hide
| Show
| ToggleVisibility
| ShowLoading
| ShowResult (text : string)
| ShowError (message : string)
| Grab (m : ScreenCapture.monitor)
| ThreadStart (image : string)
| Post (req : Request)
| Uncaught (e : exn).

Module AIWorker.

Record t : Type := {
  _image : string;
  _client : GitHubAIClient.t
}.

(** The signal a run ends with. *)
Inductive signal : Type :=
| finished (answer : string)
| error (message : string).

Definition type_name (v : value) : string :=
  match v with
  | VNone => "NoneType"
  | VBool _ => "bool"
  | VInt _ => "int"
  | VFloat _ => "float"
  | VStr _ => "str"
  | VList _ => "list"
  | VDict _ => "dict"
  end.

(** [self.finished.emit(answer)] on a [pyqtSignal(str)]: a [str] is
    delivered as it is, [None] is delivered as the empty string, and a
    value of another type is refused. *)
Definition emit_finished (answer : value) : result signal :=
  match answer with
  | VStr s => Return (finished s)
  | VNone => Return (finished EmptyString)
  | v => Raise (Exn TypeError
           ("AIWorker.finished[str].emit(): argument 1 has unexpected type '"
            ++ type_name v ++ "'"))
  end.

(** [run()]: the signal emitted; every exception is caught. *)
Definition run `{Runtime} (self : t) (net : transport)
    : list Request -> signal * list Request :=
  fun sent =>
    match (answer ← GitHubAIClient.answer_from_screenshot
                      (_client self) net (_image self);
           lift (emit_finished answer)) sent with
    | (Return sig, sent') => (sig, sent')
    | (Raise exc, sent') =>
        let details := format_exc exc in
        (error (exn_str exc ++ LF ++ LF ++ "Details:" ++ LF ++ details), sent')
    end.

End AIWorker.

Module App.

(** The [QThread] object behind [self._thread].  It runs from [start()]
    until the worker's signal makes it quit.  [_start_worker] connects
    [finished] to [deleteLater], so a thread that no longer runs has been
    deleted, while [self._thread] still refers to it: in this record
    [isRunning := false] is that deleted thread. *)
Record QThread : Type := { isRunning : bool }.

Definition deleted (thread : QThread) : bool := negb (isRunning thread).

Definition THREAD_DELETED : exn :=
  Exn (OtherException "RuntimeError")
    "wrapped C/C++ object of type QThread has been deleted".

(** [thread.isRunning()]: a method call on a deleted object raises. *)
Definition call_isRunning (thread : QThread) : result bool :=
  if deleted thread then Raise THREAD_DELETED else Return (isRunning thread).

Record t : Type := {
  _capture : ScreenCapture.t;
  _ai_client : GitHubAIClient.t;
  _overlay : OverlayWindow.t;
  _region : option Config.region;
  _thread : option QThread;
  _worker : option AIWorker.t;
  (** the calls received by the collaborators so far *)
  calls : list call
}.

Definition with_overlay (c : call) (f : OverlayWindow.t -> OverlayWindow.t)
    (self : t) : t :=
  {| _capture := _capture self; _ai_client := _ai_client self;
     _overlay := f (_overlay self); _region := _region self;
     _thread := _thread self; _worker := _worker self;
     calls := (calls self ++ [c])%list |}.

Definition record_calls (cs : list call) (self : t) : t :=
  {| _capture := _capture self; _ai_client := _ai_client self;
     _overlay := _overlay self; _region := _region self;
     _thread := _thread self; _worker := _worker self;
     calls := (calls self ++ cs)%list |}.

Section Pipeline.
Context `{Runtime}.

(** [App()]: the configuration is the module [config] as loaded; the
    monitors are what mss reports. *)
Definition __init__ (config : Config.t) (monitors : list ScreenCapture.monitor)
    : io t :=
  region ← lift (Config.CAPTURE_REGION config);
  ai_client ← GitHubAIClient.default_init config;
  mret {| _capture := {| ScreenCapture.monitors := monitors |};
          _ai_client := ai_client;
          _overlay := OverlayWindow.__init__;
          _region := region;
          _thread := None;
          _worker := None;
          calls := [] |}.

(** [run()] up to entering the event loop. *)
Definition run (self : t) : t := with_overlay Show OverlayWindow.show self.

(** [_start_worker(b64_image)].  The guard calls [isRunning()] on
    whatever [self._thread] refers to; on the deleted thread of a finished
    run the call raises, and the exception leaves [_start_worker]. *)
Definition _start_worker (b64_image : string) (self : t) : t :=
  let guard : result bool :=
    match _thread self with
    | Some thread => call_isRunning thread
    | None => Return false
    end in
  match guard with
  | Return true => self
  | Return false =>
      {| _capture := _capture self; _ai_client := _ai_client self;
         _overlay := _overlay self; _region := _region self;
         _thread := Some {| isRunning := true |};
         _worker := Some {| AIWorker._image := b64_image;
                            AIWorker._client := _ai_client self |};
         calls := (calls self ++ [ThreadStart b64_image])%list |}
  | Raise exc => record_calls [Uncaught exc] self
  end.

(** [_trigger_scan()], with the screen as the capture finds it.  The
    [finally] clause runs on both paths, after the handler on the failing
    one.  [_start_worker] is called outside the [try]: an exception it
    raises leaves [_trigger_scan] as well. *)
Definition _trigger_scan (screen : ScreenCapture.platform) (self : t) : t :=
  let was_visible := OverlayWindow.isVisible (_overlay self) in
  let self := with_overlay Hide OverlayWindow.hide self in
  let finally (self : t) : t :=
    if was_visible
    then with_overlay ShowLoading OverlayWindow.show_loading self
    else self in
  match ScreenCapture.capture_as_base64 (_capture self) screen (_region self) with
  | (Return b64, grabs) =>
      let self := record_calls (Grab <$> grabs) self in
      let self := finally self in
      _start_worker b64 self
  | (Raise exc, grabs) =>
      let self := record_calls (Grab <$> grabs) self in
      let message :=
        "Screen capture failed: " ++ exn_str exc ++ LF ++ format_exc exc in
      let self :=
        with_overlay (ShowError message) (OverlayWindow.show_error message) self in
      finally self
  end.

Definition _on_ai_finished (answer : string) (self : t) : t :=
  with_overlay (ShowResult answer) (OverlayWindow.show_result answer) self.

Definition _on_ai_error (message : string) (self : t) : t :=
  with_overlay (ShowError message) (OverlayWindow.show_error message) self.

Definition _on_region_selected (x y w h : Z) (self : t) : t :=
  {| _capture := _capture self; _ai_client := _ai_client self;
     _overlay := _overlay self; _region := Some (x, y, w, h);
     _thread := _thread self; _worker := _worker self;
     calls := calls self |}.

(** The run of the worker thread, from its start to its end, as one
    event: [AIWorker.run] against the network as it is during the run (its
    one request and the answer), the slot connected to the emitted signal,
    [self._thread.quit] and, the thread having finished, its
    [deleteLater].  The request is recorded with this event; when during
    the run it was sent is not told.  Without a running thread nothing
    happens. *)
Definition worker_completes (net : transport) (self : t) : t :=
  match _thread self, _worker self with
  | Some {| isRunning := true |}, Some worker =>
      let '(sig, sent) := AIWorker.run worker net [] in
      let self := record_calls (Post <$> sent) self in
      let self :=
        match sig with
        | AIWorker.finished answer => _on_ai_finished answer self
        | AIWorker.error message => _on_ai_error message self
        end in
      {| _capture := _capture self; _ai_client := _ai_client self;
         _overlay := _overlay self; _region := _region self;
         _thread := Some {| isRunning := false |};
         _worker := _worker self;
         calls := calls self |}
  | _, _ => self
  end.

(** What the controlling context reacts to. *)
Inductive event : Type :=
| HotkeyScan (screen : ScreenCapture.platform)
| HotkeyToggle
| RegionSelected (x y w h : Z)
| WorkerCompletes (net : transport).

Definition handle (self : t) (ev : event) : t :=
  match ev with
  | HotkeyScan screen => _trigger_scan screen self
  | HotkeyToggle =>
      with_overlay ToggleVisibility OverlayWindow.toggle_visibility self
  | RegionSelected x y w h => _on_region_selected x y w h self
  | WorkerCompletes net => worker_completes net self
  end.

Definition handle_all (self : t) (evs : list event) : t :=
  foldl handle self evs.

(** A run is in flight: there is a thread and it is running. *)
Definition in_flight (self : t) : bool :=
  match _thread self with
  | Some th => isRunning th
  | None => false
  end.

(** The calls [self'] has received beyond those of [self]. *)
Definition new_calls (self self' : t) : list call :=
  drop (length (calls self)) (calls self').

End Pipeline.

End App.

Definition is_grab (c : call) : bool :=
  match c with Grab _ => true | _ => false end.
Definition is_post (c : call) : bool :=
  match c with Post _ => true | _ => false end.
Definition is_thread_start (c : call) : bool :=
  match c with ThreadStart _ => true | _ => false end.
Definition is_show_error (c : call) : bool :=
  match c with ShowError _ => true | _ => false end.

(** [sub] occurs in [s]. *)
Definition contains (s sub : string) : Prop :=
  ∃ pre post, s = pre ++ sub ++ post.

(** ** A runtime to compute with

    The ASCII part of what CPython does: [strip] removes the white space
    of [str.isspace] below code point 128, [int] reads an optional sign
    and decimal digits that single underscores may separate.  The
    rendering of values and the tracebacks are kept short. *)

Module Sample.

Definition is_space (c : Ascii.ascii) : bool :=
  let n := Ascii.nat_of_ascii c in
  ((9 <=? n)%nat && (n <=? 13)%nat) || ((28 <=? n)%nat && (n <=? 32)%nat).

Fixpoint lstrip (s : string) : string :=
  match s with
  | String c s' => if is_space c then lstrip s' else s
  | EmptyString => EmptyString
  end.

Definition strip (s : string) : string :=
  String.rev (lstrip (String.rev (lstrip s))).

Definition digit (c : Ascii.ascii) : option Z :=
  let n := Ascii.nat_of_ascii c in
  if ((48 <=? n)%nat && (n <=? 57)%nat)%bool then Some (Z.of_nat n - 48) else None.

Fixpoint digits (acc : Z) (after_digit : bool) (s : string) : option Z :=
  match s with
  | EmptyString => if after_digit then Some acc else None
  | String c s' =>
      if Ascii.eqb c "_"%char then
        if after_digit then digits acc false s' else None
      else
        match digit c with
        | Some d => digits (10 * acc + d) true s'
        | None => None
        end
  end.

Definition int (s : string) : option Z :=
  match strip s with
  | String c s' =>
      if Ascii.eqb c "-"%char then Z.opp <$> digits 0 false s'
      else if Ascii.eqb c "+"%char then digits 0 false s'
      else digits 0 false (String c s')
  | EmptyString => None
  end.

Definition runtime : Runtime := {|
  str_value v := "<" ++ AIWorker.type_name v ++ ">";
  str_strip := strip;
  int_of_str := int;
  format_exc e := "Traceback (most recent call last): " ++ exn_str e;
  status_error_message code :=
    if bool_decide (code = 500)%Z then "Server error '500 Internal Server Error'"
    else "HTTP status error"
|}.

End Sample.

(** * Definitions of the statements and sample inputs *)

(** Two line feeds, the blank line of the text prompt. *)
Definition BLANK_LINE : string := String "010"%char (String "010"%char EmptyString).


(** The body [{"choices":[{"message":{"content":"42"}}]}], decoded. *)
Definition body_42 : value :=
  PromptBuilder.dict [
    ("choices", VList [
       PromptBuilder.dict [
         ("message", PromptBuilder.dict [("content", VStr "42")])]])].

(** The request [_call] posts for [messages]. *)
Definition request_of (self : GitHubAIClient.t) (messages : value) : Request :=
  {| req_url := GitHubAIClient._ENDPOINT;
     req_json := GitHubAIClient._build_payload self messages;
     req_headers := GitHubAIClient._build_headers self;
     req_timeout := GitHubAIClient._timeout self |}.

Definition dq : string := String "034"%char EmptyString.


Definition response_42 : Response :=
  {| status_code := 200;
     text := "{" ++ dq ++ "choices" ++ dq ++ ":[{" ++ dq ++ "message" ++ dq
             ++ ":{" ++ dq ++ "content" ++ dq ++ ":" ++ dq ++ "42" ++ dq ++ "}}]}";
     json := Return body_42 |}.

Definition response_500 : Response :=
  {| status_code := 500;
     text := "Internal Server Error";
     json := Raise (Exn ValueError "Expecting value: line 1 column 1 (char 0)") |}.

Definition client0 : GitHubAIClient.t :=
  {| GitHubAIClient._token := "ghp_token";
     GitHubAIClient._model := "openai/gpt-4o";
     GitHubAIClient._temperature := Config.TEMPERATURE;
     GitHubAIClient._max_tokens := Config.MAX_TOKENS;
     GitHubAIClient._timeout := 60 |}.

(** The message [_trigger_scan] shows when the capture raises [exc]. *)
Definition capture_failure_message `{Runtime} (exc : exn) : string :=
  "Screen capture failed: " ++ exn_str exc ++ LF ++ format_exc exc.

(** The calls one [_trigger_scan] makes, read off its control flow. *)
Definition trigger_calls `{Runtime} (screen : ScreenCapture.platform)
    (self : App.t)
    : list call :=
  let loading :=
    if OverlayWindow.isVisible (App._overlay self) then [ShowLoading] else [] in
  match ScreenCapture.capture_as_base64
          (App._capture self) screen (App._region self) with
  | (Return b64, grabs) =>
      Hide :: (Grab <$> grabs) ++ loading
        ++ match App._thread self with
           | None => [ThreadStart b64]
           | Some thread =>
               if App.isRunning thread then []
               else [Uncaught App.THREAD_DELETED]
           end
  | (Raise exc, grabs) =>
      Hide :: (Grab <$> grabs)
        ++ [ShowError (capture_failure_message exc)] ++ loading
  end.

(** Sample inputs of the pipeline. *)
Definition desktop : ScreenCapture.monitor :=
  {| ScreenCapture.left := 0; ScreenCapture.top := 0;
     ScreenCapture.width := 3840; ScreenCapture.height := 1080 |}.

Definition primary : ScreenCapture.monitor :=
  {| ScreenCapture.left := 0; ScreenCapture.top := 0;
     ScreenCapture.width := 1920; ScreenCapture.height := 1080 |}.

Definition config0 : Config.t :=
  @Config.load Sample.runtime {[ "GITHUB_TOKEN" := "ghp_token" ]}.

(** The application after [App()] and [run()], as a record. *)
Definition app0 : App.t :=
  {| App._capture := {| ScreenCapture.monitors := [desktop; primary] |};
     App._ai_client := client0;
     App._overlay := OverlayWindow.show OverlayWindow.__init__;
     App._region := None;
     App._thread := None;
     App._worker := None;
     App.calls := [Show] |}.

Definition screen_ok : ScreenCapture.platform :=
  fun _ => Return "iVBORw0KGgo=".

Definition capture_exc : exn :=
  Exn (OtherException "ScreenShotError") "XGetImage() failed".

Definition screen_fails : ScreenCapture.platform :=
  fun _ => Raise capture_exc.

(** One trigger accepted, its worker still running. *)
Definition busy : App.t := @App._trigger_scan Sample.runtime screen_ok app0.

(** The region updates among the events, oldest first. *)
Definition region_updates (evs : list App.event) : list Config.region :=
  omap (fun ev => match ev with
                  | App.RegionSelected x y w h => Some (x, y, w, h)
                  | _ => None
                  end) evs.

(** The specification's active region: the most recently received update,
    or the configured region when none has been received. *)
Definition latest_region (configured : option Config.region)
    (evs : list App.event) : option Config.region :=
  match last (region_updates evs) with
  | Some r => Some r
  | None => configured
  end.

(** A decoded body on which the subscript chain of [_call] meets a value
    of the wrong type: the body is not a dictionary, [choices] is a scalar
    ([None], a boolean or a number), the first choice is not a dictionary,
    or its [message] is not a dictionary. *)
Definition is_dict (v : value) : bool :=
  match v with VDict _ => true | _ => false end.

Definition is_scalar (v : value) : bool :=
  match v with
  | VNone | VBool _ | VInt _ | VFloat _ => true
  | _ => false
  end.

Inductive type_mismatch : value → Prop :=
| body_not_dict (v : value) :
    is_dict v = false → type_mismatch v
| choices_scalar (d : gmap string value) (v : value) :
    d !! "choices" = Some v → is_scalar v = true → type_mismatch (VDict d)
| choice_not_dict (d : gmap string value) (c : value) (rest : list value) :
    d !! "choices" = Some (VList (c :: rest)) →
    is_dict c = false → type_mismatch (VDict d)
| message_not_dict (d c : gmap string value) (rest : list value) (m : value) :
    d !! "choices" = Some (VList (VDict c :: rest)) →
    c !! "message" = Some m →
    is_dict m = false → type_mismatch (VDict d).

(** The number of occurrences of a character in a string. *)
Fixpoint count_char (c : Ascii.ascii) (s : string) : nat :=
  match s with
  | EmptyString => 0
  | String c' s' => (if Ascii.eqb c' c then 1 else 0) + count_char c s'
  end.

(** [sep.join(parts)] for a one-character separator. *)
Fixpoint str_join (sep : Ascii.ascii) (parts : list string) : string :=
  match parts with
  | [] => EmptyString
  | [p] => p
  | p :: rest => p ++ String sep (str_join sep rest)
  end.

(** Further responses of a mocked transport: two choices, a body that is
    not JSON, and a body whose [choices] is [null]. *)
Definition response_two_choices : Response :=
  {| status_code := 201;
     text := EmptyString;
     json := Return (PromptBuilder.dict [
       ("id", VStr "chatcmpl-1");
       ("choices", VList [
          PromptBuilder.dict [
            ("index", VInt 0);
            ("message", PromptBuilder.dict [
               ("role", VStr "assistant"); ("content", VStr "first")])];
          PromptBuilder.dict [
            ("index", VInt 1);
            ("message", PromptBuilder.dict [("content", VStr "second")])]])]) |}.

Definition decode_error : exn :=
  Exn ValueError "Expecting value: line 1 column 1 (char 0)".

Definition response_not_json : Response :=
  {| status_code := 200; text := "<html>"; json := Raise decode_error |}.

Definition response_null_choices : Response :=
  {| status_code := 200; text := EmptyString;
     json := Return (PromptBuilder.dict [("choices", VNone)]) |}.

(** The worker of [busy], and an application on a host where mss reports
    the combined screen only. *)
Definition worker0 : AIWorker.t :=
  {| AIWorker._image := "iVBORw0KGgo="; AIWorker._client := client0 |}.

Definition app_one_monitor : App.t :=
  {| App._capture := {| ScreenCapture.monitors := [desktop] |};
     App._ai_client := client0;
     App._overlay := OverlayWindow.show OverlayWindow.__init__;
     App._region := None;
     App._thread := None;
     App._worker := None;
     App.calls := [Show] |}.

(** ** ui/region_selector.py *)

Module RegionSelector.

Record QPoint : Type := { px : Z; py : Z }.

(** A [QRect] through its accessors [x()], [y()], [width()], [height()]. *)
Record QRect : Type := { rx : Z; ry : Z; rwidth : Z; rheight : Z }.

Inductive MouseButton : Type := LeftButton | RightButton | MiddleButton.

Inductive Key : Type := Key_Escape | Key_Other (code : Z).

(** The selector: the drag origin, the current point, and whether the
    widget is shown. *)
Record t : Type := {
  _origin : option QPoint;
  _current : option QPoint;
  shown : bool
}.

Definition __init__ : t :=
  {| _origin := None; _current := None; shown := false |}.

(** [start()]: the widget is shown over the screen. *)
Definition start (self : t) : t :=
  {| _origin := _origin self; _current := _current self; shown := true |}.

(** [close()] *)
Definition close (self : t) : t :=
  {| _origin := _origin self; _current := _current self; shown := false |}.

Section Selector.
(** [QRect(origin, current).normalized()], as Qt computes it. *)
Variable normalized : QPoint → QPoint → QRect.

(** [_selection_rect()], with its assertion. *)
Definition _selection_rect (self : t) : result QRect :=
  match _origin self, _current self with
  | Some origin, Some current => Return (normalized origin current)
  | _, _ => Raise (Exn (OtherException "AssertionError") EmptyString)
  end.

Definition mousePressEvent (button : MouseButton) (pos : QPoint) (self : t) : t :=
  match button with
  | LeftButton =>
      {| _origin := Some pos; _current := Some pos; shown := shown self |}
  | _ => self
  end.

Definition mouseMoveEvent (pos : QPoint) (self : t) : t :=
  match _origin self with
  | Some _ =>
      {| _origin := _origin self; _current := Some pos; shown := shown self |}
  | None => self
  end.

(** [mouseReleaseEvent(event)]: the selector afterwards and the
    [region_selected] signals emitted. *)
Definition mouseReleaseEvent (button : MouseButton) (self : t)
    : result (t * list Config.region) :=
  match button, _origin self with
  | LeftButton, Some _ =>
      rect ← _selection_rect self;
      let self := close self in
      if bool_decide (rwidth rect > 5 ∧ rheight rect > 5)%Z
      then Return (self, [(rx rect, ry rect, rwidth rect, rheight rect)])
      else Return (self, [])
  | _, _ => Return (self, [])
  end.

Definition keyPressEvent (key : Key) (self : t) : t :=
  match key with
  | Key_Escape => close self
  | Key_Other _ => self
  end.

(** What the widget reacts to. *)
Inductive event : Type :=
| Start
| MousePress (button : MouseButton) (pos : QPoint)
| MouseMove (pos : QPoint)
| MouseRelease (button : MouseButton)
| KeyPress (key : Key).

Definition handle (self : t) (ev : event) : result (t * list Config.region) :=
  match ev with
  | Start => Return (start self, [])
  | MousePress button pos => Return (mousePressEvent button pos self, [])
  | MouseMove pos => Return (mouseMoveEvent pos self, [])
  | MouseRelease button => mouseReleaseEvent button self
  | KeyPress key => Return (keyPressEvent key self, [])
  end.

(** The events in order; the signals emitted are collected. *)
Fixpoint handle_all (self : t) (evs : list event)
    : result (t * list Config.region) :=
  match evs with
  | [] => Return (self, [])
  | ev :: evs =>
      '(self, emitted) ← handle self ev;
      '(self, emitted') ← handle_all self evs;
      Return (self, (emitted ++ emitted')%list)
  end.

End Selector.

(** The slot connected in [App.__init__]: each emitted region reaches
    [App._on_region_selected]. *)
Definition deliver (emitted : list Config.region) : list App.event :=
  (fun r => match r with (x, y, w, h) => App.RegionSelected x y w h end)
    <$> emitted.

End RegionSelector.

(** Every region has a width and a height above 5. *)
Definition all_large (emitted : list Config.region) : Prop :=
  Forall (fun r => match r with (_, _, w, h) => (w > 5 ∧ h > 5)%Z end) emitted.

(** A drag origin always comes with a current point. *)
Definition origin_has_current (self : RegionSelector.t) : Prop :=
  is_Some (RegionSelector._origin self) → is_Some (RegionSelector._current self).

(** [QRect(p, q).normalized()] as Qt 6 computes it, to compute with: the
    rectangle has the corners [p] and [q], both included; where [q] lies
    before [p], the corners become [q + 1] and [p - 1]. *)
Definition sample_normalized (p q : RegionSelector.QPoint) : RegionSelector.QRect :=
  let x1 := RegionSelector.px p in
  let y1 := RegionSelector.py p in
  let x2 := RegionSelector.px q in
  let y2 := RegionSelector.py q in
  let '(xa, xb) := if (x2 <? x1)%Z then (x2 + 1, x1 - 1) else (x1, x2) in
  let '(ya, yb) := if (y2 <? y1)%Z then (y2 + 1, y1 - 1) else (y1, y2) in
  {| RegionSelector.rx := xa;
     RegionSelector.ry := ya;
     RegionSelector.rwidth := xb - xa + 1;
     RegionSelector.rheight := yb - ya + 1 |}.

(** ** ui/hotkey_manager.py, with the hotkeys of config.py *)

Module HotkeyManager.

(** The four hotkey strings of [config]. *)
Record hotkeys : Type := {
  HOTKEY_SCAN : string;
  HOTKEY_TOGGLE : string;
  HOTKEY_REGION : string;
  HOTKEY_QUIT : string
}.

Definition load_hotkeys (environ : gmap string string) : hotkeys :=
  {| HOTKEY_SCAN := Config.getenv environ "HOTKEY_SCAN" "<ctrl>+<shift>+s";
     HOTKEY_TOGGLE := Config.getenv environ "HOTKEY_TOGGLE" "<ctrl>+<shift>+h";
     HOTKEY_REGION := Config.getenv environ "HOTKEY_REGION" "<ctrl>+<shift>+r";
     HOTKEY_QUIT := Config.getenv environ "HOTKEY_QUIT" "<ctrl>+<shift>+q" |}.

(** A dictionary display [{k1: v1, ...}]: the entries are stored in order,
    so a later entry replaces an earlier one with the same key. *)
Definition dict_display {V} (kvs : list (string * V)) : gmap string V :=
  foldl (fun d kv => <[kv.1 := kv.2]> d) ∅ kvs.

Section Manager.
(** The callbacks. *)
Context {H : Type}.

(** The manager: its bindings and its listener, named by the number under
    which the listener thread was created. *)
Record t : Type := {
  _bindings : gmap string H;
  _listener : option nat
}.

Definition __init__ (config : hotkeys) (on_scan on_toggle on_region on_quit : H)
    : t :=
  {| _bindings := dict_display [
       (HOTKEY_SCAN config, on_scan);
       (HOTKEY_TOGGLE config, on_toggle);
       (HOTKEY_REGION config, on_region);
       (HOTKEY_QUIT config, on_quit)];
     _listener := None |}.

(** The listener threads of the process: how many were created, and the
    bindings of those that are running. *)
Record listeners : Type := {
  created : nat;
  running : gmap nat (gmap string H)
}.

(** [start()]: a new listener on the bindings is created and started. *)
Definition start (self : t) (world : listeners) : t * listeners :=
  let id := created world in
  ({| _bindings := _bindings self; _listener := Some id |},
   {| created := S id;
      running := <[id := _bindings self]> (running world) |}).

(** [stop()] *)
Definition stop (self : t) (world : listeners) : t * listeners :=
  match _listener self with
  | Some id =>
      ({| _bindings := _bindings self; _listener := None |},
       {| created := created world; running := delete id (running world) |})
  | None => (self, world)
  end.

End Manager.

Arguments t : clear implicits.
Arguments listeners : clear implicits.

End HotkeyManager.

(** ** capture/ocr_engine.py *)

Module OCREngine.

(** [except ImportError] catches the class and its subclass. *)
Definition is_import_error (c : exn_class) : bool :=
  match c with
  | OtherException name =>
      bool_decide (name = "ImportError" ∨ name = "ModuleNotFoundError")
  | _ => false
  end.

Definition MISSING_EASYOCR : exn :=
  Exn (OtherException "ImportError")
    ("easyocr is required for OCR support. "
     ++ "Install it with: pip install easyocr").

Section Engine.
(** EasyOCR readers and PIL images. *)
Context {reader image : Type}.

(** What the libraries do on this host: the two lazy imports, the
    construction of [easyocr.Reader(languages, gpu=False, verbose=False)],
    [reader.readtext(np.array(image), detail=0, paragraph=True)], and
    [Image.open(io.BytesIO(image_bytes))]. *)
Record libraries : Type := {
  import_easyocr : result unit;
  Reader : list string → result reader;
  import_numpy : result unit;
  readtext : reader → image → result (list string);
  image_open : string → result image
}.

Record t : Type := {
  _languages : list string;
  _reader : option reader
}.

(** [OCREngine(languages)]: an empty list is falsy, like [None]. *)
Definition __init__ (languages : option (list string)) : t :=
  {| _languages := match languages with
                   | Some (l :: ls) => l :: ls
                   | Some [] | None => ["en"; "vi"]
                   end;
     _reader := None |}.

(** [_get_reader()]: the outcome, the engine afterwards, and the language
    lists readers have been constructed with so far. *)
Definition _get_reader (libs : libraries) (self : t)
    (built : list (list string))
    : result reader * t * list (list string) :=
  match _reader self with
  | Some r => (Return r, self, built)
  | None =>
      let '(attempt, built) :=
        match import_easyocr libs with
        | Return _ =>
            (Reader libs (_languages self), (built ++ [_languages self])%list)
        | Raise e => (Raise e, built)
        end in
      match attempt with
      | Return r =>
          (Return r, {| _languages := _languages self; _reader := Some r |},
           built)
      | Raise e =>
          if is_import_error (exn_cls e) then (Raise MISSING_EASYOCR, self, built)
          else (Raise e, self, built)
      end
  end.

(** [extract_text(image)] *)
Definition extract_text (libs : libraries) (image_ : image) (self : t)
    (built : list (list string))
    : result string * t * list (list string) :=
  match _get_reader libs self built with
  | (Return r, self, built) =>
      (_ ← import_numpy libs;
       results ← readtext libs r image_;
       Return (str_join "010"%char results),
       self, built)
  | (Raise e, self, built) => (Raise e, self, built)
  end.

(** [extract_text_from_bytes(image_bytes)] *)
Definition extract_text_from_bytes (libs : libraries) (image_bytes : string)
    (self : t) (built : list (list string))
    : result string * t * list (list string) :=
  match image_open libs image_bytes with
  | Return image_ => extract_text libs image_ self built
  | Raise e => (Raise e, self, built)
  end.

(** Extractions one after the other on the same engine. *)
Fixpoint extract_all (libs : libraries) (images : list image) (self : t)
    (built : list (list string))
    : list (result string) * t * list (list string) :=
  match images with
  | [] => ([], self, built)
  | image_ :: images =>
      let '(r, self, built) := extract_text libs image_ self built in
      let '(rs, self, built) := extract_all libs images self built in
      (r :: rs, self, built)
  end.

End Engine.

Arguments libraries : clear implicits.
Arguments t : clear implicits.

End OCREngine.

(** Hosts to compute with: readers are numbers, images their own text. *)
Definition ocr_host : OCREngine.libraries nat string :=
  {| OCREngine.import_easyocr := Return ();
     OCREngine.Reader := fun languages => Return (length languages);
     OCREngine.import_numpy := Return ();
     OCREngine.readtext := fun _ image_ =>
       if decide (image_ = EmptyString)
       then Raise (Exn ValueError "Invalid input type")
       else Return [image_; "second paragraph"];
     OCREngine.image_open := fun image_bytes => Return image_bytes |}.

Definition no_easyocr : exn :=
  Exn (OtherException "ModuleNotFoundError") "No module named 'easyocr'".

Definition ocr_host_without_easyocr : OCREngine.libraries nat string :=
  {| OCREngine.import_easyocr := Raise no_easyocr;
     OCREngine.Reader := fun languages => Return (length languages);
     OCREngine.import_numpy := Return ();
     OCREngine.readtext := fun _ image_ => Return [image_];
     OCREngine.image_open := fun image_bytes => Return image_bytes |}.

Definition download_failed : exn :=
  Exn (OtherException "URLError") "<urlopen error timed out>".

Definition ocr_host_without_models : OCREngine.libraries nat string :=
  {| OCREngine.import_easyocr := Return ();
     OCREngine.Reader := fun _ => Raise download_failed;
     OCREngine.import_numpy := Return ();
     OCREngine.readtext := fun _ image_ => Return [image_];
     OCREngine.image_open := fun image_bytes => Return image_bytes |}.



(** The application after one completed run. *)
Definition after_run : App.t :=
  @App.handle_all Sample.runtime app0
    [App.HotkeyScan screen_ok;
     App.WorkerCompletes (fun _ => Return response_42)].

(** * Properties *)

(** ** Prompt builder *)

(** C2: for every extracted text [T] and instruction [I],
    [build_text_messages] returns exactly two messages, the system message
    with the fixed text-mode prompt and then one user message whose content
    is the single string "Screen content:", a blank line, [T], a blank
    line, and the instruction; the instruction is "Please answer the
    questions above." when it is omitted. *)
Theorem build_text_messages_content (T : string) (I : option string) :
  ∃ system user : gmap string value,
    PromptBuilder.build_text_messages T I = VList [VDict system; VDict user]
    ∧ system !! "role" = Some (VStr "system")
    ∧ system !! "content" = Some (VStr PromptBuilder.SYSTEM_PROMPT_TEXT)
    ∧ user !! "role" = Some (VStr "user")
    ∧ user !! "content" =
        Some (VStr ("Screen content:" ++ BLANK_LINE ++ T ++ BLANK_LINE
                    ++ default "Please answer the questions above." I)).
Proof.
  unfold PromptBuilder.build_text_messages, PromptBuilder.dict.
  eexists _, _. split; [reflexivity|].
  repeat split; try reflexivity.
Qed.

(** C3: for every base64 image string [P] and instruction [I],
    [build_vision_messages] returns exactly two messages, the system
    message first and then one user message whose content is a list of
    exactly two parts: one image reference whose URL is
    "data:image/png;base64," followed by [P], then one text part equal to
    the instruction. *)
Theorem build_vision_messages_content (P : string) (I : option string) :
  ∃ system user image image_url text_part : gmap string value,
    PromptBuilder.build_vision_messages P I = VList [VDict system; VDict user]
    ∧ system !! "role" = Some (VStr "system")
    ∧ system !! "content" = Some (VStr PromptBuilder.SYSTEM_PROMPT_VISION)
    ∧ user !! "role" = Some (VStr "user")
    ∧ user !! "content" = Some (VList [VDict image; VDict text_part])
    ∧ image !! "type" = Some (VStr "image_url")
    ∧ image !! "image_url" = Some (VDict image_url)
    ∧ image_url !! "url" = Some (VStr ("data:image/png;base64," ++ P))
    ∧ text_part !! "type" = Some (VStr "text")
    ∧ text_part !! "text" =
        Some (VStr (default "Please read and answer all questions in this image." I)).
Proof.
  unfold PromptBuilder.build_vision_messages, PromptBuilder.dict.
  eexists _, _, _, _, _. split; [reflexivity|].
  repeat split; try reflexivity.
Qed.

(** ** Client construction *)

(** C4: the credential of a client is the [token] argument, or the
    configured [GITHUB_TOKEN] when the argument is omitted or empty.
    Constructing the client with an empty credential raises the
    configuration error ([ValueError]) and construction with a non-empty
    credential succeeds; either way no request has been sent when
    [__init__] ends. *)
Theorem init_checks_credential (config : Config.t) (token model : option string)
    (temperature : Q) (max_tokens : Z) (timeout : Q) (sent : list Request) :
  let credential := GitHubAIClient.str_or token (Config.GITHUB_TOKEN config) in
  let construct :=
    GitHubAIClient.__init__ config token model temperature max_tokens timeout in
  (credential = EmptyString →
     ∃ e, construct sent = (Raise e, sent) ∧ exn_cls e = ValueError)
  ∧ (credential ≠ EmptyString →
     ∃ self, construct sent = (Return self, sent)
             ∧ GitHubAIClient._token self = credential).
Proof.
  intros credential construct. subst credential construct.
  unfold GitHubAIClient.__init__. cbn [GitHubAIClient._token].
  split; intros Hc.
  - rewrite decide_True by exact Hc. eexists. split; reflexivity.
  - rewrite decide_False by exact Hc. eexists. split; reflexivity.
Qed.

Lemma init_checks_credential_witness :
  (∃ e, GitHubAIClient.__init__
          {| Config.GITHUB_TOKEN := EmptyString; Config.AI_MODEL := "openai/gpt-4o";
             Config.CAPTURE_REGION := Return None |}
          None None Config.TEMPERATURE Config.MAX_TOKENS 60 []
        = (Raise e, []) ∧ exn_cls e = ValueError)
  ∧ (∃ self, GitHubAIClient.__init__
          {| Config.GITHUB_TOKEN := EmptyString; Config.AI_MODEL := "openai/gpt-4o";
             Config.CAPTURE_REGION := Return None |}
          (Some "ghp_token") None Config.TEMPERATURE Config.MAX_TOKENS 60 []
        = (Return self, []) ∧ GitHubAIClient._token self = "ghp_token").
Proof.
  split.
  - apply (init_checks_credential
             {| Config.GITHUB_TOKEN := EmptyString; Config.AI_MODEL := "openai/gpt-4o";
                Config.CAPTURE_REGION := Return None |}
             None None Config.TEMPERATURE Config.MAX_TOKENS 60 []).
    reflexivity.
  - apply (init_checks_credential
             {| Config.GITHUB_TOKEN := EmptyString; Config.AI_MODEL := "openai/gpt-4o";
                Config.CAPTURE_REGION := Return None |}
             (Some "ghp_token") None Config.TEMPERATURE Config.MAX_TOKENS 60 []).
    discriminate.
Defined.

(** ** Region parsing *)

Section ParseRegionProperties.
Context `{Runtime}.

Lemma py_int_some (s : string) (z : Z) :
  int_of_str s = Some z → py_int s = Return z.
Proof. unfold py_int. intros ->. reflexivity. Qed.

Lemma py_int_none (s : string) :
  int_of_str s = None → ∃ e, py_int s = Raise e ∧ exn_cls e = ValueError.
Proof. unfold py_int. intros ->. eexists. split; reflexivity. Qed.

(** The four conversions in sequence, as the [try] body performs them. *)
Lemma parse_four (p0 p1 p2 p3 : string) :
  let body :=
    (q0 ← getitem_nat [p0; p1; p2; p3] 0; n0 ← py_int q0;
     q1 ← getitem_nat [p0; p1; p2; p3] 1; n1 ← py_int q1;
     q2 ← getitem_nat [p0; p1; p2; p3] 2; n2 ← py_int q2;
     q3 ← getitem_nat [p0; p1; p2; p3] 3; n3 ← py_int q3;
     Return (Some (n0, n1, n2, n3))) in
  match int_of_str p0, int_of_str p1, int_of_str p2, int_of_str p3 with
  | Some a, Some b, Some c, Some d => body = Return (Some (a, b, c, d))
  | _, _, _, _ => ∃ e, body = Raise e ∧ exn_cls e = ValueError
  end.
Proof.
  cbn [getitem_nat lookup list_lookup mbind result_bind].
  unfold py_int.
  destruct (int_of_str p0); cbn; [|eexists; split; reflexivity].
  destruct (int_of_str p1); cbn; [|eexists; split; reflexivity].
  destruct (int_of_str p2); cbn; [|eexists; split; reflexivity].
  destruct (int_of_str p3); cbn; [|eexists; split; reflexivity].
  reflexivity.
Qed.

(** C10: [_parse_region] never raises.  For every string it returns a
    value, and that value is the 4-tuple [(a, b, c, d)] exactly when the
    string splits on commas into four parts whose stripped forms [int]
    converts to [a], [b], [c] and [d]; every other string (empty, of
    another arity, with a part that is not an integer) gives [None]. *)
Theorem parse_region_total (value : string) :
  ∃ r : option Config.region,
    Config._parse_region value = Return r
    ∧ ∀ a b c d : Z,
        r = Some (a, b, c, d) ↔
        ∃ p0 p1 p2 p3 : string,
          str_split ","%char value = [p0; p1; p2; p3]
          ∧ int_of_str (str_strip p0) = Some a
          ∧ int_of_str (str_strip p1) = Some b
          ∧ int_of_str (str_strip p2) = Some c
          ∧ int_of_str (str_strip p3) = Some d.
Proof.
  unfold Config._parse_region.
  destruct (decide (value = EmptyString)) as [->|Hne].
  { exists None. split; [reflexivity|]. intros a b c d. split; [discriminate|].
    intros (p0 & p1 & p2 & p3 & Hs & _). cbn in Hs. discriminate. }
  destruct (decide (length (str_strip <$> str_split ","%char value) ≠ 4%nat))
    as [Hlen|Hlen].
  { exists None. split; [reflexivity|]. intros a b c d. split; [discriminate|].
    intros (p0 & p1 & p2 & p3 & Hs & _). rewrite Hs in Hlen. cbn in Hlen. lia. }
  apply dec_stable in Hlen. rewrite length_fmap in Hlen.
  destruct (str_split ","%char value) as [|p0 [|p1 [|p2 [|p3 [|p4 l]]]]];
    cbn in Hlen; try discriminate.
  cbn [fmap list_fmap].
  pose proof (parse_four (str_strip p0) (str_strip p1) (str_strip p2)
                (str_strip p3)) as Hfour.
  cbn zeta in Hfour.
  destruct (int_of_str (str_strip p0)) as [a0|] eqn:E0;
  [destruct (int_of_str (str_strip p1)) as [b0|] eqn:E1;
   [destruct (int_of_str (str_strip p2)) as [c0|] eqn:E2;
    [destruct (int_of_str (str_strip p3)) as [d0|] eqn:E3|]|]|].
  { rewrite Hfour. exists (Some (a0, b0, c0, d0)). split; [reflexivity|].
    intros a b c d. split.
    - intros [= <- <- <- <-]. exists p0, p1, p2, p3. auto.
    - intros (q0 & q1 & q2 & q3 & [= <- <- <- <-] & Ha & Hb & Hc & Hd).
      congruence. }
  all: destruct Hfour as (e & -> & He); unfold try_except; rewrite He;
    exists None; (split; [reflexivity|]); intros a b c d;
    (split; [discriminate|]);
    intros (q0 & q1 & q2 & q3 & [= <- <- <- <-] & Ha & Hb & Hc & Hd);
    congruence.
Qed.

End ParseRegionProperties.

Example parse_region_ok :
  @Config._parse_region Sample.runtime " 10, 20 ,300,400" = Return (Some (10, 20, 300, 400)).
Proof. reflexivity. Qed.

Example parse_region_arity : @Config._parse_region Sample.runtime "1,2,3" = Return None.
Proof. reflexivity. Qed.

Example parse_region_not_int :
  @Config._parse_region Sample.runtime "1,2,x,4" = Return None.
Proof. reflexivity. Qed.

Example parse_region_empty : @Config._parse_region Sample.runtime EmptyString = Return None.
Proof. reflexivity. Qed.

(** ** The call to the endpoint *)

Section CallProperties.
Context `{Runtime}.

(** [_call] invokes the transport once, whatever it answers. *)
Lemma call_posts_once (self : GitHubAIClient.t) (net : transport)
    (messages : value) (sent : list Request) :
  snd (GitHubAIClient._call self net messages sent)
  = (sent ++ [request_of self messages])%list.
Proof.
  unfold GitHubAIClient._call, mbind, io_bind, post, lift.
  fold (request_of self messages).
  destruct (net (request_of self messages)) as [response|e]; [|reflexivity].
  destruct (raise_for_status response); [|reflexivity].
  destruct (json response); reflexivity.
Qed.

(** On a 2xx response whose body decodes to [data], the outcome is that of
    the subscript chain under its handler. *)
Lemma call_on_success (self : GitHubAIClient.t) (net : transport)
    (messages : value) (sent : list Request) (response : Response)
    (data : value) :
  net (request_of self messages) = Return response →
  (200 ≤ status_code response ∧ status_code response ≤ 299)%Z →
  json response = Return data →
  fst (GitHubAIClient._call self net messages sent)
  = try_except
      (choices ← getitem_str data "choices";
       choice ← getitem_0 choices;
       message ← getitem_str choice "message";
       getitem_str message "content")
      (fun c => match c with KeyError | IndexError => true | _ => false end)
      (fun exc => Raise (Exn ValueError
         ("Unexpected API response format: " ++ str_value data))).
Proof.
  intros Hnet Hok Hjson.
  unfold GitHubAIClient._call, mbind, io_bind, post, lift.
  fold (request_of self messages). rewrite Hnet. cbv beta iota.
  unfold raise_for_status. rewrite bool_decide_eq_true_2 by exact Hok.
  rewrite Hjson. reflexivity.
Qed.


Lemma call_well_formed (self : GitHubAIClient.t) (net : transport)
    (messages : value) (sent : list Request) (response : Response)
    (d c m : gmap string value) (rest : list value) (content : value) :
  net (request_of self messages) = Return response →
  (200 ≤ status_code response ∧ status_code response ≤ 299)%Z →
  json response = Return (VDict d) →
  d !! "choices" = Some (VList (VDict c :: rest)) →
  c !! "message" = Some (VDict m) →
  m !! "content" = Some content →
  fst (GitHubAIClient._call self net messages sent) = Return content.
Proof.
  intros Hnet Hok Hjson Hc Hm Hk.
  rewrite (call_on_success _ _ _ _ _ _ Hnet Hok Hjson).
  cbn [getitem_str]. rewrite Hc. cbn. rewrite Hm. cbn. rewrite Hk. reflexivity.
Qed.


(** C6: one call invokes the transport exactly once.  A response with a
    status outside 200..299 makes the call raise [HTTPStatusError], the
    remote error; a network-level failure of the transport
    ([RequestError]) leaves the call as it is, the transport error.  No
    second request is sent in either case. *)
Theorem call_single_attempt (self : GitHubAIClient.t) (net : transport)
    (messages : value) (sent : list Request) :
  let req := request_of self messages in
  let outcome := GitHubAIClient._call self net messages sent in
  snd outcome = (sent ++ [req])%list
  ∧ (∀ response,
       net req = Return response →
       ¬ (200 ≤ status_code response ∧ status_code response ≤ 299)%Z →
       ∃ e, fst outcome = Raise e
            ∧ exn_cls e = HTTPStatusError
            ∧ call_error_kind e = Some RemoteError)
  ∧ (∀ e,
       net req = Raise e →
       exn_cls e = RequestError →
       fst outcome = Raise e ∧ call_error_kind e = Some TransportError).
Proof.
  intros req outcome. subst req outcome.
  split; [apply call_posts_once|]. split.
  - intros response Hnet Hbad.
    unfold GitHubAIClient._call, mbind, io_bind, post, lift.
    fold (request_of self messages). rewrite Hnet. cbv beta iota.
    unfold raise_for_status. rewrite bool_decide_eq_false_2 by exact Hbad.
    eexists. repeat split; reflexivity.
  - intros e Hnet Hcls.
    unfold GitHubAIClient._call, mbind, io_bind, post, lift.
    fold (request_of self messages). rewrite Hnet.
    split; [reflexivity|]. unfold call_error_kind. rewrite Hcls. reflexivity.
Qed.

End CallProperties.



Lemma call_single_attempt_witness :
  length (snd (@GitHubAIClient._call Sample.runtime client0
                 (fun _ => Return response_500) (VList []) [])) = 1%nat
  ∧ (∃ e, fst (@GitHubAIClient._call Sample.runtime client0
                 (fun _ => Return response_500) (VList []) []) = Raise e
          ∧ exn_cls e = HTTPStatusError
          ∧ call_error_kind e = Some RemoteError)
  ∧ fst (@GitHubAIClient._call Sample.runtime client0
           (fun _ => Raise (Exn RequestError "All connection attempts failed"))
           (VList []) [])
    = Raise (Exn RequestError "All connection attempts failed").
Proof.
  split; [|split].
  - rewrite (proj1 (@call_single_attempt Sample.runtime client0
                      (fun _ => Return response_500) (VList []) [])).
    reflexivity.
  - apply (proj1 (proj2 (@call_single_attempt Sample.runtime client0
                           (fun _ => Return response_500) (VList []) []))
             response_500 eq_refl).
    cbn. lia.
  - apply (proj2 (proj2 (@call_single_attempt Sample.runtime client0
                           (fun _ => Raise (Exn RequestError
                                              "All connection attempts failed"))
                           (VList []) []))
             (Exn RequestError "All connection attempts failed")
             eq_refl eq_refl).
Defined.

(** ** The pipeline *)

Section PipelineProperties.
Context `{Runtime}.

Lemma in_flight_thread (self : App.t) :
  App.in_flight self = true →
  App._thread self = Some {| App.isRunning := true |}.
Proof.
  unfold App.in_flight. destruct (App._thread self) as [[[]]|];
    try discriminate. reflexivity.
Qed.

Lemma trigger_scan_calls (screen : ScreenCapture.platform) (self : App.t) :
  App.calls (App._trigger_scan screen self)
  = (App.calls self ++ trigger_calls screen self)%list.
Proof.
  unfold App._trigger_scan, trigger_calls, App.in_flight, App._start_worker,
    capture_failure_message.
  destruct self as [cap ai ov reg th wk cs]. cbn.
  destruct (ScreenCapture.capture_as_base64 cap screen reg) as [[b64|exc] grabs];
    destruct (OverlayWindow.isVisible ov); cbn;
    try (destruct th as [[[]]|]; cbn);
    rewrite <- ?app_assoc, ?app_nil_r; reflexivity.
Qed.

Lemma new_calls_trigger_scan (screen : ScreenCapture.platform) (self : App.t) :
  App.new_calls self (App._trigger_scan screen self) = trigger_calls screen self.
Proof.
  unfold App.new_calls. rewrite trigger_scan_calls. apply drop_app_length.
Qed.

(** A trigger never touches the region, the capture object or the client. *)
Lemma trigger_scan_static (screen : ScreenCapture.platform) (self : App.t) :
  App._region (App._trigger_scan screen self) = App._region self
  ∧ App._capture (App._trigger_scan screen self) = App._capture self
  ∧ App._ai_client (App._trigger_scan screen self) = App._ai_client self.
Proof.
  unfold App._trigger_scan, App._start_worker.
  destruct self as [cap ai ov reg th wk cs]. cbn.
  destruct (ScreenCapture.capture_as_base64 cap screen reg) as [[b64|exc] grabs];
    destruct (OverlayWindow.isVisible ov); cbn;
    try (destruct th as [[[]]|]; cbn); auto.
Qed.

(** With a run in flight, or when the capture raises, a trigger leaves the
    thread and the worker as they are. *)
Lemma trigger_scan_keeps_worker (screen : ScreenCapture.platform) (self : App.t) :
  App.in_flight self = true
  ∨ is_raise (fst (ScreenCapture.capture_as_base64
                     (App._capture self) screen (App._region self))) = true →
  App._thread (App._trigger_scan screen self) = App._thread self
  ∧ App._worker (App._trigger_scan screen self) = App._worker self.
Proof.
  unfold App._trigger_scan, App._start_worker, App.in_flight.
  destruct self as [cap ai ov reg th wk cs]. cbn.
  destruct (ScreenCapture.capture_as_base64 cap screen reg) as [[b64|exc] grabs];
    destruct (OverlayWindow.isVisible ov); cbn;
    try (destruct th as [[[]]|]; cbn); auto;
    intros [?|?]; discriminate.
Qed.

(** What the worker's completion does depends on the thread and the worker
    alone. *)
Lemma worker_completes_congruence (net : transport) (a b : App.t) :
  App._thread a = App._thread b →
  App._worker a = App._worker b →
  App.new_calls a (App.worker_completes net a)
  = App.new_calls b (App.worker_completes net b)
  ∧ App._thread (App.worker_completes net a)
    = App._thread (App.worker_completes net b)
  ∧ App._worker (App.worker_completes net a)
    = App._worker (App.worker_completes net b).
Proof.
  destruct a as [cap ai ov reg th wk cs], b as [cap' ai' ov' reg' th' wk' cs'].
  cbn. intros <- <-.
  unfold App.worker_completes, App.new_calls. cbn.
  destruct th as [[[]]|]; cbn; rewrite ?drop_all; auto.
  destruct wk as [w|]; cbn; rewrite ?drop_all; auto.
  destruct (AIWorker.run w net []) as [[answer|message] sent]; cbn;
    rewrite <- !app_assoc, !drop_app_length; auto.
Qed.

End PipelineProperties.

Example app0_constructed :
  (self ← App.__init__ config0 [desktop; primary]; mret (App.run self)) []
  = (Return app0, []).
Proof. reflexivity. Qed.

Example busy_in_flight :
  App.in_flight busy = true
  ∧ App.calls busy = [Show; Hide; Grab primary; ShowLoading;
                      ThreadStart "iVBORw0KGgo="].
Proof. split; reflexivity. Qed.

(** End to end: a trigger with no region configured, a capture that
    succeeds and a call answered "The result is 7" give one [show_result],
    no [show_error], and no run in flight at the end. *)
Example end_to_end_answer :
  let net : transport := fun _ =>
    Return {| status_code := 200; text := EmptyString;
              json := Return (PromptBuilder.dict [
                ("choices", VList [PromptBuilder.dict [
                   ("message", PromptBuilder.dict [
                      ("content", VStr "The result is 7")])]])]) |} in
  let final := @App.handle_all Sample.runtime app0
                 [App.HotkeyScan screen_ok; App.WorkerCompletes net] in
  List.filter (fun c => match c with ShowResult _ | ShowError _ => true
                                   | _ => false end) (App.calls final)
  = [ShowResult "The result is 7"]
  ∧ App.in_flight final = false
  ∧ OverlayWindow.label_text (App._overlay final) = "The result is 7".
Proof. repeat split; vm_compute; reflexivity. Qed.

Section PipelineClaims.
Context `{Runtime}.

(** C1, as amended: a trigger issued while a worker thread is still
    running starts no second worker and causes no network call; it is
    dropped without queueing, and the run in flight is unaffected: the
    thread and the worker are unchanged, and the worker's completion
    makes the same calls and leaves the same thread and worker as it would
    have without the trigger. *)
Theorem trigger_in_flight_dropped (screen : ScreenCapture.platform)
    (self : App.t) :
  App.in_flight self = true →
  let self' := App._trigger_scan screen self in
  List.filter is_thread_start (App.new_calls self self') = []
  ∧ List.filter is_post (App.new_calls self self') = []
  ∧ App._thread self' = App._thread self
  ∧ App._worker self' = App._worker self
  ∧ ∀ net : transport,
      App.new_calls self' (App.worker_completes net self')
      = App.new_calls self (App.worker_completes net self)
      ∧ App._thread (App.worker_completes net self')
        = App._thread (App.worker_completes net self)
      ∧ App._worker (App.worker_completes net self')
        = App._worker (App.worker_completes net self).
Proof.
  intros Hbusy self'. subst self'.
  destruct (trigger_scan_keeps_worker screen self (or_introl Hbusy)) as [Hth Hwk].
  rewrite new_calls_trigger_scan.
  split; [|split; [|split; [exact Hth|split; [exact Hwk|]]]].
  - unfold trigger_calls. rewrite (in_flight_thread self Hbusy).
    destruct (ScreenCapture.capture_as_base64 _ _ _) as [[b64|exc] grabs];
      destruct (OverlayWindow.isVisible _); cbn;
      rewrite ?List.filter_app; cbn; rewrite ?app_nil_r;
      induction grabs; cbn; auto.
  - unfold trigger_calls. rewrite (in_flight_thread self Hbusy).
    destruct (ScreenCapture.capture_as_base64 _ _ _) as [[b64|exc] grabs];
      destruct (OverlayWindow.isVisible _); cbn;
      rewrite ?List.filter_app; cbn; rewrite ?app_nil_r;
      induction grabs; cbn; auto.
  - intros net. apply worker_completes_congruence; assumption.
Qed.

(** When the capture of a trigger raises, the overlay receives exactly
    one [show_error], whose message contains the text of the exception; no
    worker is started and nothing is posted; thread and worker are left as
    they were.  Before any run ([self._thread] is [None]) the pipeline is
    then as idle as it was, and the next trigger whose capture succeeds
    starts a worker. *)
Theorem capture_failure_shows_one_error (screen : ScreenCapture.platform)
    (self : App.t) (exc : exn) :
  fst (ScreenCapture.capture_as_base64
         (App._capture self) screen (App._region self)) = Raise exc →
  let self' := App._trigger_scan screen self in
  (∃ message,
      List.filter is_show_error (App.new_calls self self') = [ShowError message]
      ∧ contains message (exn_str exc))
  ∧ List.filter is_post (App.new_calls self self') = []
  ∧ List.filter is_thread_start (App.new_calls self self') = []
  ∧ App._thread self' = App._thread self
  ∧ App._worker self' = App._worker self
  ∧ (App._thread self = None →
     App._thread self' = None
     ∧ ∀ (screen' : ScreenCapture.platform) (b64 : string),
         fst (ScreenCapture.capture_as_base64
                (App._capture self') screen' (App._region self')) = Return b64 →
         App.in_flight (App._trigger_scan screen' self') = true
         ∧ List.filter is_thread_start
             (App.new_calls self' (App._trigger_scan screen' self'))
           = [ThreadStart b64]).
Proof.
  intros Hraise self'. subst self'.
  assert (is_raise (fst (ScreenCapture.capture_as_base64
            (App._capture self) screen (App._region self))) = true) as Hr
    by (rewrite Hraise; reflexivity).
  destruct (trigger_scan_keeps_worker screen self (or_intror Hr)) as [Hth Hwk].
  rewrite new_calls_trigger_scan.
  assert (∀ p : call → bool, p Hide = false → p ShowLoading = false →
            (∀ m, p (Grab m) = false) →
            List.filter p (trigger_calls screen self)
            = List.filter p [ShowError (capture_failure_message exc)]) as Hfilter.
  { intros p Hh Hl Hg. unfold trigger_calls.
    destruct (ScreenCapture.capture_as_base64 _ _ _) as [[b64|exc'] grabs];
      cbn in Hraise; [discriminate|]. injection Hraise as ->.
    cbn [List.filter]. rewrite Hh, !List.filter_app.
    replace (List.filter p (Grab <$> grabs)) with (@nil call)
      by (induction grabs as [|m grabs IH]; cbn; [|rewrite Hg]; auto).
    replace (List.filter p (if OverlayWindow.isVisible (App._overlay self)
                            then [ShowLoading] else [])) with (@nil call)
      by (destruct (OverlayWindow.isVisible _); cbn; [rewrite Hl|]; auto).
    rewrite app_nil_r. reflexivity. }
  split; [|split; [|split; [|split; [exact Hth|split; [exact Hwk|]]]]].
  - exists (capture_failure_message exc). split.
    + rewrite Hfilter by (intros; reflexivity). reflexivity.
    + exists "Screen capture failed: ", (LF ++ format_exc exc).
      unfold capture_failure_message. reflexivity.
  - rewrite Hfilter by (intros; reflexivity). reflexivity.
  - rewrite Hfilter by (intros; reflexivity). reflexivity.
  - intros Hnone.
    assert (App._thread (App._trigger_scan screen self) = None) as Hnone'
      by (rewrite Hth; exact Hnone).
    split; [exact Hnone'|].
    intros screen' b64 Hok.
    remember (App._trigger_scan screen self) as now eqn:Hnow.
    clear Hnow Hth Hwk Hfilter Hraise Hr Hnone.
    rewrite new_calls_trigger_scan. unfold trigger_calls. rewrite Hnone'.
    unfold App._trigger_scan, App._start_worker, App.in_flight in *.
    destruct now as [cap ai ov reg th wk cs]. cbn in *. subst th.
    destruct (ScreenCapture.capture_as_base64 cap screen' reg)
      as [[b64'|exc'] grabs]; cbn in Hok; [|discriminate].
    injection Hok as ->.
    split.
    + destruct (OverlayWindow.isVisible ov); reflexivity.
    + cbn. rewrite !List.filter_app.
      replace (List.filter is_thread_start (Grab <$> grabs)) with (@nil call)
        by (induction grabs; cbn; auto).
      destruct (OverlayWindow.isVisible ov); reflexivity.
Qed.

End PipelineClaims.

Section RegionClaims.
Context `{Runtime}.

Lemma worker_completes_static (net : transport) (self : App.t) :
  App._region (App.worker_completes net self) = App._region self
  ∧ App._capture (App.worker_completes net self) = App._capture self.
Proof.
  unfold App.worker_completes.
  destruct self as [cap ai ov reg th wk cs]. cbn.
  destruct th as [[[]]|]; cbn; auto.
  destruct wk as [w|]; cbn; auto.
  destruct (AIWorker.run w net []) as [[answer|message] sent]; cbn; auto.
Qed.

(** After any events the region is the latest one in the specification's
    sense, and the capture object is the one the application began with. *)
Lemma handle_all_region (evs : list App.event) (self : App.t) :
  App._region (App.handle_all self evs) = latest_region (App._region self) evs
  ∧ App._capture (App.handle_all self evs) = App._capture self.
Proof.
  induction evs as [|ev evs IH] using rev_ind.
  - split; reflexivity.
  - unfold App.handle_all in *. rewrite foldl_app. cbn [foldl].
    destruct IH as [IHr IHc].
    unfold latest_region, region_updates in *. rewrite omap_app.
    destruct ev as [screen| |x y w h|net]; cbn [App.handle omap list_omap].
    + rewrite app_nil_r.
      destruct (trigger_scan_static screen (foldl App.handle self evs))
        as (-> & -> & _). auto.
    + rewrite app_nil_r. auto.
    + rewrite last_snoc. cbn. auto.
    + rewrite app_nil_r.
      destruct (worker_completes_static net (foldl App.handle self evs))
        as (-> & ->). auto.
Qed.

Lemma trigger_grabs (screen : ScreenCapture.platform) (self : App.t) :
  List.filter is_grab (trigger_calls screen self)
  = match ScreenCapture._build_monitor (App._capture self) (App._region self) with
    | Return m => [Grab m]
    | Raise _ => []
    end.
Proof.
  unfold trigger_calls, ScreenCapture.capture_as_base64.
  destruct (ScreenCapture._build_monitor _ _) as [m|e].
  - destruct (screen m); destruct (OverlayWindow.isVisible _);
      destruct (App._thread self) as [[[]]|]; reflexivity.
  - destruct (OverlayWindow.isVisible _); reflexivity.
Qed.

(** C9: after every sequence of events (region updates, triggers, toggles,
    worker completions), a trigger captures the rectangle built from the
    most recently received region update, or from the configured region
    when no update has been received; when there is no update and no
    configured region, it captures the primary monitor. *)
Theorem trigger_uses_latest_region (self : App.t) (evs : list App.event)
    (screen : ScreenCapture.platform) :
  let now := App.handle_all self evs in
  List.filter is_grab (App.new_calls now (App._trigger_scan screen now))
  = match ScreenCapture._build_monitor (App._capture self)
            (latest_region (App._region self) evs) with
    | Return m => [Grab m]
    | Raise _ => []
    end
  ∧ (∀ x y w h, latest_region (App._region self) evs = Some (x, y, w, h) →
       List.filter is_grab (App.new_calls now (App._trigger_scan screen now))
       = [Grab {| ScreenCapture.left := x; ScreenCapture.top := y;
                  ScreenCapture.width := w; ScreenCapture.height := h |}])
  ∧ (∀ m, region_updates evs = [] → App._region self = None →
       ScreenCapture.monitors (App._capture self) !! 1%nat = Some m →
       List.filter is_grab (App.new_calls now (App._trigger_scan screen now))
       = [Grab m]).
Proof.
  intros now. subst now.
  rewrite new_calls_trigger_scan, trigger_grabs.
  destruct (handle_all_region evs self) as [-> ->].
  split; [reflexivity|]. split.
  - intros x y w h ->. reflexivity.
  - intros m Hnone Hcfg Hm. unfold latest_region. rewrite Hnone, Hcfg. cbn.
    unfold getitem_nat. rewrite Hm. reflexivity.
Qed.

End RegionClaims.

Lemma trigger_in_flight_dropped_witness :
  App.in_flight busy = true
  ∧ List.filter is_thread_start
      (App.new_calls busy (@App._trigger_scan Sample.runtime screen_ok busy)) = []
  ∧ List.filter is_post
      (App.new_calls busy (@App._trigger_scan Sample.runtime screen_ok busy)) = []
  ∧ App._worker (@App._trigger_scan Sample.runtime screen_ok busy)
    = App._worker busy.
Proof.
  pose proof (@trigger_in_flight_dropped Sample.runtime screen_ok busy eq_refl)
    as (Hstart & Hpost & _ & Hworker & _).
  split; [reflexivity|]. split; [exact Hstart|].
  split; [exact Hpost|exact Hworker].
Defined.

(** C1, as stated, fails: with a run in flight, a trigger still hides the
    overlay and captures the screen a second time before its screenshot is
    dropped. *)
Lemma trigger_in_flight_captures_again :
  App.in_flight busy = true
  ∧ App.new_calls busy (@App._trigger_scan Sample.runtime screen_ok busy)
    = [Hide; Grab primary; ShowLoading]
  ∧ List.filter is_grab
      (App.new_calls busy (@App._trigger_scan Sample.runtime screen_ok busy))
    ≠ [].
Proof.
  split; [reflexivity|]. split; [reflexivity|].
  intros Hnone. vm_compute in Hnone. discriminate Hnone.
Qed.

(** C7 at a failing capture with the overlay visible: the handler's
    [show_error] is followed by the [show_loading] of the [finally]
    clause, so the loading indication is shown although no call follows,
    and it replaces the error text. *)
Lemma capture_failure_shows_loading :
  let self' := @App._trigger_scan Sample.runtime screen_fails app0 in
  OverlayWindow.isVisible (App._overlay app0) = true
  ∧ App.new_calls app0 self'
    = [Hide; Grab primary;
       ShowError ("Screen capture failed: XGetImage() failed" ++ LF
                  ++ "Traceback (most recent call last): XGetImage() failed");
       ShowLoading]
  ∧ List.filter is_thread_start (App.new_calls app0 self') = []
  ∧ App.in_flight self' = false
  ∧ OverlayWindow.label_text (App._overlay self') = OverlayWindow.LOADING_TEXT.
Proof. repeat split. Qed.

Lemma capture_failure_shows_one_error_witness :
  (∃ message,
      List.filter is_show_error
        (App.new_calls app0 (@App._trigger_scan Sample.runtime screen_fails app0))
      = [ShowError message]
      ∧ contains message "XGetImage() failed")
  ∧ List.filter is_post
      (App.new_calls app0 (@App._trigger_scan Sample.runtime screen_fails app0))
    = [].
Proof.
  pose proof (@capture_failure_shows_one_error Sample.runtime screen_fails app0
                capture_exc eq_refl) as (Herr & Hpost & _).
  split; [exact Herr|exact Hpost].
Defined.

Lemma trigger_uses_latest_region_witness :
  List.filter is_grab
    (App.new_calls
       (@App.handle_all Sample.runtime app0
          [App.RegionSelected 10 20 300 400; App.HotkeyToggle;
           App.RegionSelected 5 6 70 80])
       (@App._trigger_scan Sample.runtime screen_ok
          (@App.handle_all Sample.runtime app0
             [App.RegionSelected 10 20 300 400; App.HotkeyToggle;
              App.RegionSelected 5 6 70 80])))
  = [Grab {| ScreenCapture.left := 5; ScreenCapture.top := 6;
             ScreenCapture.width := 70; ScreenCapture.height := 80 |}]
  ∧ List.filter is_grab
      (App.new_calls
         (@App.handle_all Sample.runtime app0 [App.HotkeyToggle])
         (@App._trigger_scan Sample.runtime screen_ok
            (@App.handle_all Sample.runtime app0 [App.HotkeyToggle])))
    = [Grab primary].
Proof.
  split.
  - apply (proj1 (proj2 (@trigger_uses_latest_region Sample.runtime app0
             [App.RegionSelected 10 20 300 400; App.HotkeyToggle;
              App.RegionSelected 5 6 70 80] screen_ok)) 5 6 70 80 eq_refl).
  - apply (proj2 (proj2 (@trigger_uses_latest_region Sample.runtime app0
             [App.HotkeyToggle] screen_ok)) primary eq_refl eq_refl eq_refl).
Defined.

Lemma parse_region_total_witness :
  @Config._parse_region Sample.runtime "10, 20,300 ,400"
  = Return (Some (10, 20, 300, 400)).
Proof.
  destruct (@parse_region_total Sample.runtime "10, 20,300 ,400")
    as (r & Hr & Hiff).
  rewrite Hr. f_equal. apply Hiff.
  exists "10", " 20", "300 ", "400". repeat split.
Defined.

(** * Further properties of the code *)

(** ** The client's call, beyond the specified cases *)

Section CallExtras.
Context `{Runtime}.

(** Every 2xx response whose decoded body has a first choice with a
    message with a content makes [_call] return that content, whatever the
    further choices and the other keys are, after exactly one request. *)
Theorem call_returns_first_choice (self : GitHubAIClient.t) (net : transport)
    (messages : value) (sent : list Request) (response : Response)
    (d c m : gmap string value) (rest : list value) (content : value) :
  net (request_of self messages) = Return response →
  (200 ≤ status_code response ∧ status_code response ≤ 299)%Z →
  json response = Return (VDict d) →
  d !! "choices" = Some (VList (VDict c :: rest)) →
  c !! "message" = Some (VDict m) →
  m !! "content" = Some content →
  GitHubAIClient._call self net messages sent
  = (Return content, (sent ++ [request_of self messages])%list).
Proof.
  intros Hnet Hok Hjson Hc Hm Hk.
  rewrite (surjective_pairing (GitHubAIClient._call self net messages sent)).
  rewrite call_posts_once.
  rewrite (call_well_formed _ _ _ _ _ _ _ _ _ _ Hnet Hok Hjson Hc Hm Hk).
  reflexivity.
Qed.

(** When the body of a 2xx response does not decode, the exception of
    [response.json()] leaves [_call] unchanged: it is not turned into the
    "Unexpected API response format" error. *)
Theorem call_decode_failure_propagates (self : GitHubAIClient.t)
    (net : transport) (messages : value) (sent : list Request)
    (response : Response) (e : exn) :
  net (request_of self messages) = Return response →
  (200 ≤ status_code response ∧ status_code response ≤ 299)%Z →
  json response = Raise e →
  GitHubAIClient._call self net messages sent
  = (Raise e, (sent ++ [request_of self messages])%list).
Proof.
  intros Hnet Hok Hjson.
  unfold GitHubAIClient._call, mbind, io_bind, post, lift.
  fold (request_of self messages). rewrite Hnet. cbv beta iota.
  unfold raise_for_status. rewrite bool_decide_eq_true_2 by exact Hok.
  rewrite Hjson. reflexivity.
Qed.

(** The handler of [_call] catches [KeyError] and [IndexError] only: a 2xx
    body on which a subscript meets a value of the wrong type makes the
    call raise [TypeError], which is none of the client's three error
    kinds. *)
Theorem call_type_error_escapes (self : GitHubAIClient.t) (net : transport)
    (messages : value) (sent : list Request) (response : Response)
    (data : value) :
  net (request_of self messages) = Return response →
  (200 ≤ status_code response ∧ status_code response ≤ 299)%Z →
  json response = Return data →
  type_mismatch data →
  ∃ e, fst (GitHubAIClient._call self net messages sent) = Raise e
       ∧ exn_cls e = TypeError
       ∧ call_error_kind e = None.
Proof.
  intros Hnet Hok Hjson Hbad.
  rewrite (call_on_success _ _ _ _ _ _ Hnet Hok Hjson).
  destruct Hbad as [v Hv|d v Hc Hv|d c rest Hc Hv|d c rest m Hc Hm Hv].
  - destruct v; try discriminate; cbn; eexists; repeat split; reflexivity.
  - cbn [getitem_str]. rewrite Hc.
    destruct v; try discriminate; cbn; eexists; repeat split; reflexivity.
  - cbn [getitem_str]. rewrite Hc.
    destruct c; try discriminate; cbn; eexists; repeat split; reflexivity.
  - cbn [getitem_str]. rewrite Hc. cbn. rewrite Hm.
    destruct m; try discriminate; cbn; eexists; repeat split; reflexivity.
Qed.

(** [AIWorker.run] posts what its one [_call] posts. *)
Lemma run_posts_once (worker : AIWorker.t) (net : transport)
    (sent : list Request) :
  snd (AIWorker.run worker net sent)
  = (sent ++ [request_of (AIWorker._client worker)
                (PromptBuilder.build_vision_messages
                   (AIWorker._image worker) None)])%list.
Proof.
  unfold AIWorker.run, GitHubAIClient.answer_from_screenshot.
  unfold mbind at 1. unfold io_bind.
  pose proof (call_posts_once (AIWorker._client worker) net
    (PromptBuilder.build_vision_messages (AIWorker._image worker) None) sent)
    as Hsent.
  destruct (GitHubAIClient._call _ _ _ sent) as [[answer|exc] sent'];
    cbn in Hsent; subst sent'.
  - unfold lift. destruct (AIWorker.emit_finished answer); reflexivity.
  - reflexivity.
Qed.

(** The signal of a run, from the outcome of its call. *)
Lemma run_signal (worker : AIWorker.t) (net : transport) (sent : list Request) :
  fst (AIWorker.run worker net sent)
  = match fst (GitHubAIClient._call (AIWorker._client worker) net
                 (PromptBuilder.build_vision_messages
                    (AIWorker._image worker) None) sent) with
    | Return (VStr answer) => AIWorker.finished answer
    | Return VNone => AIWorker.finished EmptyString
    | Return v =>
        let exc := Exn TypeError
          ("AIWorker.finished[str].emit(): argument 1 has unexpected type '"
           ++ AIWorker.type_name v ++ "'") in
        AIWorker.error (exn_str exc ++ LF ++ LF ++ "Details:" ++ LF
                        ++ format_exc exc)
    | Raise exc =>
        AIWorker.error (exn_str exc ++ LF ++ LF ++ "Details:" ++ LF
                        ++ format_exc exc)
    end.
Proof.
  unfold AIWorker.run, GitHubAIClient.answer_from_screenshot.
  unfold mbind at 1. unfold io_bind.
  destruct (GitHubAIClient._call _ _ _ sent) as [[answer|exc] sent']; cbn.
  - destruct answer; reflexivity.
  - reflexivity.
Qed.

(** One run of the worker sends exactly one request: a POST to the
    chat-completions endpoint, with the bearer token of the client, whose
    JSON body holds the client's model and sampling parameters and the
    vision messages built from the worker's screenshot with the default
    instruction. *)
Theorem worker_run_request (worker : AIWorker.t) (net : transport)
    (sent : list Request) :
  let client := AIWorker._client worker in
  ∃ (req : Request) (payload : gmap string value),
    snd (AIWorker.run worker net sent) = (sent ++ [req])%list
    ∧ req_url req = "https://models.github.ai/inference/chat/completions"
    ∧ req_timeout req = GitHubAIClient._timeout client
    ∧ req_headers req !! "Authorization"
      = Some ("Bearer " ++ GitHubAIClient._token client)
    ∧ req_headers req !! "Content-Type" = Some "application/json"
    ∧ req_json req = VDict payload
    ∧ payload !! "model" = Some (VStr (GitHubAIClient._model client))
    ∧ payload !! "temperature" = Some (VFloat (GitHubAIClient._temperature client))
    ∧ payload !! "max_tokens" = Some (VInt (GitHubAIClient._max_tokens client))
    ∧ payload !! "messages"
      = Some (PromptBuilder.build_vision_messages (AIWorker._image worker) None).
Proof.
  intros client. subst client.
  eexists (request_of (AIWorker._client worker) _), _.
  split; [apply run_posts_once|].
  repeat split; reflexivity.
Qed.

End CallExtras.

Lemma call_returns_first_choice_witness :
  @GitHubAIClient._call Sample.runtime client0
    (fun _ => Return response_two_choices) (VList []) []
  = (Return (VStr "first"), [request_of client0 (VList [])]).
Proof.
  eapply (@call_returns_first_choice Sample.runtime client0
            (fun _ => Return response_two_choices) (VList []) []
            response_two_choices);
    [reflexivity|cbn; lia|reflexivity|reflexivity|reflexivity|reflexivity].
Defined.

Lemma call_decode_failure_propagates_witness :
  @GitHubAIClient._call Sample.runtime client0
    (fun _ => Return response_not_json) (VList []) []
  = (Raise decode_error, [request_of client0 (VList [])]).
Proof.
  apply (@call_decode_failure_propagates Sample.runtime client0
           (fun _ => Return response_not_json) (VList []) []
           response_not_json decode_error eq_refl);
    [cbn; lia|reflexivity].
Defined.

Lemma call_type_error_escapes_witness :
  ∃ e, fst (@GitHubAIClient._call Sample.runtime client0
              (fun _ => Return response_null_choices) (VList []) []) = Raise e
       ∧ exn_cls e = TypeError
       ∧ call_error_kind e = None.
Proof.
  apply (@call_type_error_escapes Sample.runtime client0
           (fun _ => Return response_null_choices) (VList []) []
           response_null_choices
           (PromptBuilder.dict [("choices", VNone)]) eq_refl);
    [cbn; lia|reflexivity|].
  apply (choices_scalar _ VNone); reflexivity.
Defined.

(** ** The pipeline, beyond the specified cases *)

Section PipelineExtras.
Context `{Runtime}.

(** The completion of a running worker, spelled out. *)
Lemma worker_completes_running (net : transport) (self : App.t)
    (worker : AIWorker.t) :
  App._thread self = Some {| App.isRunning := true |} →
  App._worker self = Some worker →
  let req := request_of (AIWorker._client worker)
               (PromptBuilder.build_vision_messages
                  (AIWorker._image worker) None) in
  let self' := App.worker_completes net self in
  App._thread self' = Some {| App.isRunning := false |}
  ∧ App._worker self' = Some worker
  ∧ App._region self' = App._region self
  ∧ match fst (AIWorker.run worker net []) with
    | AIWorker.finished answer =>
        App.calls self' = (App.calls self ++ [Post req; ShowResult answer])%list
        ∧ App._overlay self'
          = OverlayWindow.show_result answer (App._overlay self)
    | AIWorker.error message =>
        App.calls self' = (App.calls self ++ [Post req; ShowError message])%list
        ∧ App._overlay self'
          = OverlayWindow.show_error message (App._overlay self)
    end.
Proof.
  intros Hth Hwk req self'. subst req self'.
  destruct self as [cap ai ov reg th wk cs]. cbn in Hth, Hwk. subst th wk.
  unfold App.worker_completes. cbn.
  pose proof (run_posts_once worker net []) as Hsent.
  destruct (AIWorker.run worker net []) as [[answer|message] sent];
    cbn in Hsent; subst sent; cbn; rewrite <- !app_assoc; auto.
Qed.

(** Every completion of a running worker publishes exactly one terminal
    event after its one request: [show_result] or [show_error].  The
    overlay is then visible and shows that answer or error; the thread has
    finished and is deleted, while [self._thread] still refers to it, so
    that [isRunning()] on it raises. *)
Theorem worker_completion_publishes_once (net : transport) (self : App.t)
    (worker : AIWorker.t) :
  App._thread self = Some {| App.isRunning := true |} →
  App._worker self = Some worker →
  let self' := App.worker_completes net self in
  ∃ (req : Request) (terminal : call),
    App.new_calls self self' = [Post req; terminal]
    ∧ ((∃ answer, terminal = ShowResult answer
          ∧ OverlayWindow.label_text (App._overlay self') = answer)
       ∨ (∃ message, terminal = ShowError message
          ∧ OverlayWindow.label_text (App._overlay self')
            = "❌ Error: " ++ message))
    ∧ OverlayWindow.isVisible (App._overlay self') = true
    ∧ App._thread self' = Some {| App.isRunning := false |}
    ∧ App.call_isRunning {| App.isRunning := false |}
      = Raise App.THREAD_DELETED.
Proof.
  intros Hth Hwk self'. subst self'.
  destruct (worker_completes_running net self worker Hth Hwk)
    as (Hth' & _ & _ & Hcalls).
  unfold App.new_calls. rewrite Hth'.
  destruct (fst (AIWorker.run worker net [])) as [answer|message];
    destruct Hcalls as [-> ->]; rewrite drop_app_length;
    eexists _, _; (split; [reflexivity|]); split.
  - left. exists answer. split; [reflexivity|].
    unfold OverlayWindow.show_result, OverlayWindow.set_label.
    destruct (OverlayWindow.visible (App._overlay self)); reflexivity.
  - split; [|split; reflexivity].
    unfold OverlayWindow.show_result, OverlayWindow.set_label.
    destruct (OverlayWindow.visible (App._overlay self)); reflexivity.
  - right. exists message. split; [reflexivity|].
    unfold OverlayWindow.show_error, OverlayWindow.set_label.
    destruct (OverlayWindow.visible (App._overlay self)); reflexivity.
  - split; [|split; reflexivity].
    unfold OverlayWindow.show_error, OverlayWindow.set_label.
    destruct (OverlayWindow.visible (App._overlay self)); reflexivity.
Qed.

(** When the endpoint answers a running worker with a 2xx response whose
    first choice holds a text, the overlay receives that text in one
    [show_result], after the one request. *)
Theorem worker_success_shows_answer (net : transport) (self : App.t)
    (worker : AIWorker.t) (response : Response)
    (d c m : gmap string value) (rest : list value) (answer : string) :
  App._thread self = Some {| App.isRunning := true |} →
  App._worker self = Some worker →
  let req := request_of (AIWorker._client worker)
               (PromptBuilder.build_vision_messages
                  (AIWorker._image worker) None) in
  net req = Return response →
  (200 ≤ status_code response ∧ status_code response ≤ 299)%Z →
  json response = Return (VDict d) →
  d !! "choices" = Some (VList (VDict c :: rest)) →
  c !! "message" = Some (VDict m) →
  m !! "content" = Some (VStr answer) →
  App.new_calls self (App.worker_completes net self)
  = [Post req; ShowResult answer].
Proof.
  intros Hth Hwk req Hnet Hok Hjson Hc Hm Hk. subst req.
  destruct (worker_completes_running net self worker Hth Hwk)
    as (_ & _ & _ & Hcalls).
  rewrite run_signal in Hcalls.
  rewrite (call_well_formed _ _ _ _ _ _ _ _ _ _ Hnet Hok Hjson Hc Hm Hk)
    in Hcalls.
  destruct Hcalls as [Hcalls _].
  unfold App.new_calls. rewrite Hcalls. apply drop_app_length.
Qed.

(** When the call of a running worker raises, whatever the cause, the
    overlay receives one [show_error] whose message is the text of the
    exception, a blank line, "Details:" and the traceback. *)
Theorem worker_failure_shows_error (net : transport) (self : App.t)
    (worker : AIWorker.t) (exc : exn) :
  App._thread self = Some {| App.isRunning := true |} →
  App._worker self = Some worker →
  let messages := PromptBuilder.build_vision_messages
                    (AIWorker._image worker) None in
  fst (GitHubAIClient._call (AIWorker._client worker) net messages [])
  = Raise exc →
  App.new_calls self (App.worker_completes net self)
  = [Post (request_of (AIWorker._client worker) messages);
     ShowError (exn_str exc ++ BLANK_LINE ++ "Details:" ++ LF ++ format_exc exc)].
Proof.
  intros Hth Hwk messages Hraise. subst messages.
  destruct (worker_completes_running net self worker Hth Hwk)
    as (_ & _ & _ & Hcalls).
  rewrite run_signal, Hraise in Hcalls.
  destruct Hcalls as [Hcalls _].
  unfold App.new_calls. rewrite Hcalls. apply drop_app_length.
Qed.

End PipelineExtras.

Section PipelineInvariants.
Context `{Runtime}.

(** What one trigger does to the thread, the worker and the overlay. *)
Lemma trigger_scan_effect (screen : ScreenCapture.platform) (self : App.t) :
  let self' := App._trigger_scan screen self in
  match fst (ScreenCapture.capture_as_base64
               (App._capture self) screen (App._region self)) with
  | Return b64 =>
      match App._thread self with
      | Some _ => App._thread self' = App._thread self
                  ∧ App._worker self' = App._worker self
      | None => App._thread self' = Some {| App.isRunning := true |}
                ∧ App._worker self'
                  = Some {| AIWorker._image := b64;
                            AIWorker._client := App._ai_client self |}
      end
      ∧ OverlayWindow.isVisible (App._overlay self')
        = OverlayWindow.isVisible (App._overlay self)
  | Raise exc =>
      App._thread self' = App._thread self
      ∧ App._worker self' = App._worker self
      ∧ OverlayWindow.isVisible (App._overlay self') = true
  end.
Proof.
  unfold App._trigger_scan, App._start_worker, App.in_flight.
  destruct self as [cap ai [vis txt sty] reg th wk cs]. cbn.
  destruct (ScreenCapture.capture_as_base64 cap screen reg) as [[b64|exc] grabs];
    destruct vis; cbn; try (destruct th as [[[]]|]; cbn); auto.
Qed.





(** The first trigger accepted: while [self._thread] is [None] and the
    capture succeeds, a worker is started on that very screenshot with the
    application's client.  The calls are [hide], the grab, [show_loading]
    if the overlay was visible, and the thread start, in this order; the
    overlay is visible afterwards exactly if it was before. *)
Theorem trigger_accepted (screen : ScreenCapture.platform) (self : App.t)
    (m : ScreenCapture.monitor) (b64 : string) :
  App._thread self = None →
  ScreenCapture._build_monitor (App._capture self) (App._region self)
  = Return m →
  screen m = Return b64 →
  let self' := App._trigger_scan screen self in
  App.in_flight self' = true
  ∧ App._worker self' = Some {| AIWorker._image := b64;
                                AIWorker._client := App._ai_client self |}
  ∧ App.new_calls self self'
    = (Hide :: Grab m
         :: (if OverlayWindow.isVisible (App._overlay self)
             then [ShowLoading] else [])
         ++ [ThreadStart b64])%list
  ∧ OverlayWindow.isVisible (App._overlay self')
    = OverlayWindow.isVisible (App._overlay self).
Proof.
  intros Hidle Hmon Hscreen self'. subst self'.
  pose proof (trigger_scan_effect screen self) as Heff. cbn zeta in Heff.
  rewrite new_calls_trigger_scan. unfold trigger_calls.
  unfold ScreenCapture.capture_as_base64 in *. rewrite Hmon in *.
  rewrite Hscreen in *. cbn in Heff. rewrite Hidle in *.
  destruct Heff as [[Hth Hwk] Hvis].
  split; [unfold App.in_flight; rewrite Hth; reflexivity|].
  split; [exact Hwk|]. split; [reflexivity|exact Hvis].
Qed.

(** After a completed run [self._thread] still refers to the deleted
    thread: a further trigger whose capture succeeds hides the overlay,
    grabs, shows the loading text if the overlay was visible, and then the
    guard of [_start_worker] raises [RuntimeError], which leaves
    [_trigger_scan] uncaught.  No worker is started, and the thread stays
    as it is, so the same happens on every later trigger. *)
Theorem trigger_after_completed_run (screen : ScreenCapture.platform)
    (self : App.t) (m : ScreenCapture.monitor) (b64 : string) :
  App._thread self = Some {| App.isRunning := false |} →
  ScreenCapture._build_monitor (App._capture self) (App._region self)
  = Return m →
  screen m = Return b64 →
  let self' := App._trigger_scan screen self in
  App.new_calls self self'
  = (Hide :: Grab m
       :: (if OverlayWindow.isVisible (App._overlay self)
           then [ShowLoading] else [])
       ++ [Uncaught App.THREAD_DELETED])%list
  ∧ App._thread self' = Some {| App.isRunning := false |}
  ∧ App._worker self' = App._worker self.
Proof.
  intros Hdel Hmon Hscreen self'. subst self'.
  pose proof (trigger_scan_effect screen self) as Heff. cbn zeta in Heff.
  rewrite new_calls_trigger_scan. unfold trigger_calls.
  unfold ScreenCapture.capture_as_base64 in *. rewrite Hmon in *.
  rewrite Hscreen in *. cbn in Heff. rewrite Hdel in *.
  destruct Heff as [[Hth Hwk] _].
  split; [reflexivity|]. split; assumption.
Qed.

(** Every trigger hides the overlay first: [hide] is the first call it
    makes, it never hides again, and it grabs at most one rectangle,
    after the [hide]. *)
Theorem trigger_hides_first (screen : ScreenCapture.platform) (self : App.t) :
  ∃ rest : list call,
    App.new_calls self (App._trigger_scan screen self) = Hide :: rest
    ∧ (Hide ∉ rest)
    ∧ (length (List.filter is_grab rest) ≤ 1)%nat.
Proof.
  rewrite new_calls_trigger_scan. unfold trigger_calls.
  unfold ScreenCapture.capture_as_base64.
  destruct (ScreenCapture._build_monitor _ _) as [m|e].
  - destruct (screen m); destruct (OverlayWindow.isVisible _);
      destruct (App._thread self) as [[[]]|]; cbn; eexists;
      (split; [reflexivity|]); (split; [|cbn; lia]);
      rewrite ?not_elem_of_cons; repeat split; try discriminate;
      apply not_elem_of_nil.
  - destruct (OverlayWindow.isVisible _); cbn; eexists;
      (split; [reflexivity|]); (split; [|cbn; lia]);
      rewrite ?not_elem_of_cons; repeat split; try discriminate;
      apply not_elem_of_nil.
Qed.

(** Without a region and with fewer than two monitors reported, the
    lookup of the primary monitor fails: the trigger grabs nothing, shows
    one error naming the index failure, and starts no worker. *)
Theorem trigger_without_primary_monitor (screen : ScreenCapture.platform)
    (self : App.t) :
  App._region self = None →
  (length (ScreenCapture.monitors (App._capture self)) < 2)%nat →
  let self' := App._trigger_scan screen self in
  List.filter is_grab (App.new_calls self self') = []
  ∧ List.filter is_thread_start (App.new_calls self self') = []
  ∧ (∃ message,
       List.filter is_show_error (App.new_calls self self')
       = [ShowError message]
       ∧ contains message "list index out of range")
  ∧ App._thread self' = App._thread self.
Proof.
  intros Hreg Hlen self'. subst self'.
  assert (ScreenCapture.capture_as_base64 (App._capture self) screen
            (App._region self)
          = (Raise (Exn IndexError "list index out of range"), [])) as Hcap.
  { unfold ScreenCapture.capture_as_base64, ScreenCapture._build_monitor,
      getitem_nat. rewrite Hreg.
    rewrite (lookup_ge_None_2 _ 1) by lia. reflexivity. }
  pose proof (trigger_scan_effect screen self) as Heff. cbn zeta in Heff.
  rewrite Hcap in Heff. cbn in Heff. destruct Heff as (Hth & _ & _).
  rewrite new_calls_trigger_scan. unfold trigger_calls. rewrite Hcap.
  destruct (OverlayWindow.isVisible _); cbn;
    (split; [reflexivity|]); (split; [reflexivity|]); (split; [|exact Hth]);
    eexists; (split; [reflexivity|]);
    exists "Screen capture failed: ",
      (LF ++ format_exc (Exn IndexError "list index out of range"));
    reflexivity.
Qed.

(** A region update while a run is in flight does not reach that run: the
    thread, the worker, the overlay and the calls stay as they are, and
    the completion of the worker is the same as without the update. *)
Theorem region_update_keeps_run (x y w h : Z) (net : transport) (self : App.t) :
  let self' := App._on_region_selected x y w h self in
  App._region self' = Some (x, y, w, h)
  ∧ App._thread self' = App._thread self
  ∧ App._worker self' = App._worker self
  ∧ App._overlay self' = App._overlay self
  ∧ App.calls self' = App.calls self
  ∧ App.new_calls self' (App.worker_completes net self')
    = App.new_calls self (App.worker_completes net self).
Proof.
  intros self'. subst self'. repeat split.
  apply worker_completes_congruence; reflexivity.
Qed.

End PipelineInvariants.

Lemma worker_completion_publishes_once_witness :
  ∃ (req : Request) (terminal : call),
    App.new_calls busy
      (@App.worker_completes Sample.runtime (fun _ => Return response_500) busy)
    = [Post req; terminal]
    ∧ ((∃ answer, terminal = ShowResult answer
          ∧ OverlayWindow.label_text
              (App._overlay (@App.worker_completes Sample.runtime
                               (fun _ => Return response_500) busy)) = answer)
       ∨ (∃ message, terminal = ShowError message
          ∧ OverlayWindow.label_text
              (App._overlay (@App.worker_completes Sample.runtime
                               (fun _ => Return response_500) busy))
            = "❌ Error: " ++ message))
    ∧ OverlayWindow.isVisible
        (App._overlay (@App.worker_completes Sample.runtime
                         (fun _ => Return response_500) busy)) = true
    ∧ App._thread (@App.worker_completes Sample.runtime
                     (fun _ => Return response_500) busy)
      = Some {| App.isRunning := false |}
    ∧ App.call_isRunning {| App.isRunning := false |}
      = Raise App.THREAD_DELETED.
Proof.
  exact (@worker_completion_publishes_once Sample.runtime
           (fun _ => Return response_500) busy worker0 eq_refl eq_refl).
Defined.

Lemma worker_success_shows_answer_witness :
  App.new_calls busy
    (@App.worker_completes Sample.runtime
       (fun _ => Return response_two_choices) busy)
  = [Post (request_of client0
             (PromptBuilder.build_vision_messages "iVBORw0KGgo=" None));
     ShowResult "first"].
Proof.
  eapply (@worker_success_shows_answer Sample.runtime
            (fun _ => Return response_two_choices) busy worker0
            response_two_choices);
    [reflexivity|reflexivity|reflexivity|cbn; lia
    |reflexivity|reflexivity|reflexivity|reflexivity].
Defined.

Lemma worker_failure_shows_error_witness :
  App.new_calls busy
    (@App.worker_completes Sample.runtime (fun _ => Return response_500) busy)
  = [Post (request_of client0
             (PromptBuilder.build_vision_messages "iVBORw0KGgo=" None));
     ShowError ("Server error '500 Internal Server Error'" ++ BLANK_LINE
                ++ "Details:" ++ LF
                ++ "Traceback (most recent call last): "
                ++ "Server error '500 Internal Server Error'")].
Proof.
  exact (@worker_failure_shows_error Sample.runtime
           (fun _ => Return response_500) busy worker0
           (Exn HTTPStatusError "Server error '500 Internal Server Error'")
           eq_refl eq_refl eq_refl).
Defined.


Lemma trigger_accepted_witness :
  App.in_flight (@App._trigger_scan Sample.runtime screen_ok app0) = true
  ∧ App._worker (@App._trigger_scan Sample.runtime screen_ok app0)
    = Some worker0
  ∧ App.new_calls app0 (@App._trigger_scan Sample.runtime screen_ok app0)
    = [Hide; Grab primary; ShowLoading; ThreadStart "iVBORw0KGgo="]
  ∧ OverlayWindow.isVisible
      (App._overlay (@App._trigger_scan Sample.runtime screen_ok app0))
    = true.
Proof.
  exact (@trigger_accepted Sample.runtime screen_ok app0 primary
           "iVBORw0KGgo=" eq_refl eq_refl eq_refl).
Defined.

Lemma trigger_without_primary_monitor_witness :
  List.filter is_grab
    (App.new_calls app_one_monitor
       (@App._trigger_scan Sample.runtime screen_ok app_one_monitor)) = []
  ∧ List.filter is_thread_start
      (App.new_calls app_one_monitor
         (@App._trigger_scan Sample.runtime screen_ok app_one_monitor)) = []
  ∧ (∃ message,
       List.filter is_show_error
         (App.new_calls app_one_monitor
            (@App._trigger_scan Sample.runtime screen_ok app_one_monitor))
       = [ShowError message]
       ∧ contains message "list index out of range")
  ∧ App._thread (@App._trigger_scan Sample.runtime screen_ok app_one_monitor)
    = None.
Proof.
  apply (@trigger_without_primary_monitor Sample.runtime screen_ok
           app_one_monitor eq_refl).
  cbn. lia.
Defined.

(** ** Configuration and start-up *)

Section StartupExtras.
Context `{Runtime}.

Lemma parse_region_returns (value : string) :
  ∃ r : option Config.region, Config._parse_region value = Return r.
Proof.
  unfold Config._parse_region.
  destruct (decide (value = EmptyString)); [eauto|].
  destruct (decide (length (str_strip <$> str_split ","%char value) ≠ 4%nat))
    as [Hlen|Hlen]; [eauto|].
  apply dec_stable in Hlen.
  destruct (str_strip <$> str_split ","%char value)
    as [|p0 [|p1 [|p2 [|p3 [|p4 l]]]]]; cbn in Hlen; try discriminate.
  pose proof (parse_four p0 p1 p2 p3) as Hfour. cbn zeta in Hfour.
  destruct (int_of_str p0); [destruct (int_of_str p1);
    [destruct (int_of_str p2); [destruct (int_of_str p3)|]|]|].
  { rewrite Hfour. cbn. eauto. }
  all: destruct Hfour as (e & -> & He); unfold try_except; rewrite He; eauto.
Qed.

(** Start-up depends on the token alone.  With [GITHUB_TOKEN] unset or
    empty, [App()] raises [ValueError]; otherwise it succeeds, whatever
    [CAPTURE_REGION] holds: the application is idle, its overlay hidden,
    its region the parsed [CAPTURE_REGION], its model [AI_MODEL] or
    "openai/gpt-4o".  No request is sent in either case. *)
Theorem app_startup (environ : gmap string string)
    (monitors : list ScreenCapture.monitor) (sent : list Request) :
  let token := Config.getenv environ "GITHUB_TOKEN" EmptyString in
  let construct := App.__init__ (Config.load environ) monitors in
  (token = EmptyString →
     ∃ e, construct sent = (Raise e, sent) ∧ exn_cls e = ValueError)
  ∧ (token ≠ EmptyString →
     ∃ self, construct sent = (Return self, sent)
       ∧ Config._parse_region
           (Config.getenv environ "CAPTURE_REGION" EmptyString)
         = Return (App._region self)
       ∧ GitHubAIClient._token (App._ai_client self) = token
       ∧ GitHubAIClient._model (App._ai_client self)
         = Config.getenv environ "AI_MODEL" "openai/gpt-4o"
       ∧ ScreenCapture.monitors (App._capture self) = monitors
       ∧ App.in_flight self = false
       ∧ App.calls self = []
       ∧ OverlayWindow.isVisible (App._overlay self) = false).
Proof.
  intros token construct. subst token construct.
  unfold App.__init__, Config.load. cbn [Config.CAPTURE_REGION].
  destruct (parse_region_returns
              (Config.getenv environ "CAPTURE_REGION" EmptyString)) as [r Hr].
  rewrite Hr.
  unfold mbind, io_bind, lift, GitHubAIClient.default_init,
    GitHubAIClient.__init__, GitHubAIClient.str_or.
  cbn [Config.GITHUB_TOKEN Config.AI_MODEL GitHubAIClient._token].
  split; intros Htok.
  - rewrite decide_True by exact Htok. eexists. split; reflexivity.
  - rewrite decide_False by exact Htok. eexists. repeat split; reflexivity.
Qed.

Lemma str_split_length (sep : Ascii.ascii) (s : string) :
  length (str_split sep s) = S (count_char sep s).
Proof.
  induction s as [|c s IH]; [reflexivity|].
  cbn [str_split count_char].
  destruct (Ascii.eqb c sep); cbn.
  - rewrite IH. reflexivity.
  - destruct (str_split sep s) as [|hd tl]; cbn in *; [discriminate|].
    exact IH.
Qed.

(** Splitting and joining with the same separator gives the string back. *)
Lemma str_join_split (sep : Ascii.ascii) (s : string) :
  str_join sep (str_split sep s) = s.
Proof.
  induction s as [|c s IH]; [reflexivity|].
  cbn [str_split].
  destruct (Ascii.eqb c sep) eqn:E.
  - apply Ascii.eqb_eq in E. subst c.
    pose proof (str_split_length sep s) as Hlen.
    destruct (str_split sep s) as [|hd tl]; [discriminate|].
    cbn [str_join]. cbn in IH. rewrite IH. reflexivity.
  - pose proof (str_split_length sep s) as Hlen.
    destruct (str_split sep s) as [|hd tl]; [discriminate|].
    destruct tl as [|hd' tl]; cbn in IH |- *.
    + rewrite IH. reflexivity.
    + rewrite <- IH. reflexivity.
Qed.

(** A region string is accepted only with exactly three commas: with any
    other number of commas [_parse_region] returns [None], whatever stands
    between them. *)
Theorem parse_region_needs_three_commas (value : string) :
  count_char ","%char value ≠ 3%nat →
  Config._parse_region value = Return None.
Proof.
  intros Hcount. unfold Config._parse_region.
  destruct (decide (value = EmptyString)); [reflexivity|].
  rewrite decide_True; [reflexivity|].
  rewrite length_fmap, str_split_length. lia.
Qed.

End StartupExtras.

Lemma app_startup_witness :
  (∃ e, App.__init__
          (@Config.load Sample.runtime {[ "CAPTURE_REGION" := "0,0,800,600" ]})
          [desktop; primary] [] = (Raise e, [])
        ∧ exn_cls e = ValueError)
  ∧ (∃ self, App.__init__
          (@Config.load Sample.runtime
             {[ "GITHUB_TOKEN" := "ghp_token"; "CAPTURE_REGION" := "oops" ]})
          [desktop; primary] [] = (Return self, [])
        ∧ App._region self = None
        ∧ GitHubAIClient._model (App._ai_client self) = "openai/gpt-4o").
Proof.
  split.
  - apply (proj1 (@app_startup Sample.runtime
                    {[ "CAPTURE_REGION" := "0,0,800,600" ]}
                    [desktop; primary] [])).
    reflexivity.
  - destruct (proj2 (@app_startup Sample.runtime
                       {[ "GITHUB_TOKEN" := "ghp_token";
                          "CAPTURE_REGION" := "oops" ]}
                       [desktop; primary] []))
      as (self & Hinit & Hreg & _ & Hmodel & _).
    { vm_compute. discriminate. }
    exists self. split; [exact Hinit|]. split; [|exact Hmodel].
    assert (Return None = Return (App._region self)) as Hnone by exact Hreg.
    injection Hnone as Hnone. symmetry. exact Hnone.
Defined.

Lemma parse_region_needs_three_commas_witness :
  @Config._parse_region Sample.runtime "1,2,3,4,5" = Return None.
Proof.
  apply (@parse_region_needs_three_commas Sample.runtime "1,2,3,4,5").
  cbn. lia.
Defined.

(** ** The overlay *)

(** What the overlay shows does not depend on what it showed before:
    [show_result], [show_error] and [show_loading] leave it visible with
    their own text and style, whether it was hidden or not.  Toggling the
    visibility twice gives the overlay back, and toggling never changes
    the text. *)
Theorem overlay_show_overrides (self : OverlayWindow.t) (text : string) :
  OverlayWindow.show_result text self
  = {| OverlayWindow.visible := true; OverlayWindow.label_text := text;
       OverlayWindow.label_style := "color: #ffffff;" |}
  ∧ OverlayWindow.show_error text self
    = {| OverlayWindow.visible := true;
         OverlayWindow.label_text := "❌ Error: " ++ text;
         OverlayWindow.label_style := "color: #ff6b6b;" |}
  ∧ OverlayWindow.show_loading self
    = {| OverlayWindow.visible := true;
         OverlayWindow.label_text := OverlayWindow.LOADING_TEXT;
         OverlayWindow.label_style := "color: #aaaaaa; font-style: italic;" |}
  ∧ OverlayWindow.toggle_visibility (OverlayWindow.toggle_visibility self) = self
  ∧ OverlayWindow.label_text (OverlayWindow.toggle_visibility self)
    = OverlayWindow.label_text self.
Proof.
  destruct self as [[] txt sty]; repeat split.
Qed.

(** ** The region selector *)

Section SelectorExtras.
Variable normalized :
  RegionSelector.QPoint → RegionSelector.QPoint → RegionSelector.QRect.

Lemma selector_step (self : RegionSelector.t) (ev : RegionSelector.event) :
  origin_has_current self →
  ∃ self' emitted,
    RegionSelector.handle normalized self ev = Return (self', emitted)
    ∧ origin_has_current self'
    ∧ all_large emitted.
Proof.
  intros Hinv. unfold origin_has_current in *.
  destruct self as [origin current vis]. cbn in Hinv.
  destruct ev as [|button pos|pos|button|key]; cbn.
  - eexists _, _. split; [reflexivity|]. split; [exact Hinv|constructor].
  - destruct button; eexists _, _; (split; [reflexivity|]);
      (split; [|constructor]); cbn; eauto.
  - unfold RegionSelector.mouseMoveEvent. cbn.
    destruct origin; eexists _, _; (split; [reflexivity|]);
      (split; [|constructor]); cbn; eauto.
  - unfold RegionSelector.mouseReleaseEvent, RegionSelector._selection_rect.
    cbn.
    destruct button; try (eexists _, _; split; [reflexivity|];
                          split; [exact Hinv|constructor]).
    destruct origin as [o|];
      [|eexists _, _; split; [reflexivity|]; split; [exact Hinv|constructor]].
    destruct (Hinv (mk_is_Some _ _ eq_refl)) as [c ->]. cbn.
    destruct (bool_decide _) eqn:Hbig; eexists _, _; (split; [reflexivity|]);
      (split; [cbn; eauto|]).
    + apply bool_decide_eq_true_1 in Hbig. repeat constructor; apply Hbig.
    + constructor.
  - destruct key; eexists _, _; (split; [reflexivity|]);
      (split; [exact Hinv|constructor]).
Qed.

Lemma selector_steps (evs : list RegionSelector.event) (self : RegionSelector.t) :
  origin_has_current self →
  ∃ self' emitted,
    RegionSelector.handle_all normalized self evs = Return (self', emitted)
    ∧ origin_has_current self'
    ∧ all_large emitted.
Proof.
  revert self. induction evs as [|ev evs IH]; intros self Hinv.
  - eexists _, _. split; [reflexivity|]. split; [exact Hinv|constructor].
  - destruct (selector_step self ev Hinv) as (s1 & e1 & H1 & Hinv1 & Hbig1).
    destruct (IH s1 Hinv1) as (s2 & e2 & H2 & Hinv2 & Hbig2).
    cbn [RegionSelector.handle_all]. rewrite H1. cbn. rewrite H2. cbn.
    eexists _, _. split; [reflexivity|]. split; [exact Hinv2|].
    apply Forall_app. split; assumption.
Qed.

Lemma selector_emits_large_regions_aux (evs : list RegionSelector.event) :
  ∃ self' emitted,
    RegionSelector.handle_all normalized RegionSelector.__init__ evs
    = Return (self', emitted)
    ∧ all_large emitted.
Proof.
  destruct (selector_steps evs RegionSelector.__init__)
    as (self' & emitted & Hrun & _ & Hbig).
  { intros [x Hx]. discriminate Hx. }
  eauto.
Qed.

(** Whatever the user does with mouse and keyboard, the selector never
    trips the assertion of [_selection_rect], and every region it emits
    has a width and a height above 5 pixels. *)
Theorem selector_emits_large_regions (evs : list RegionSelector.event) :
  ∃ self' emitted,
    RegionSelector.handle_all normalized RegionSelector.__init__ evs
    = Return (self', emitted)
    ∧ all_large emitted.
Proof. apply selector_emits_large_regions_aux. Qed.

Lemma default_last_cons {A} (c m : A) (l : list A) :
  default c (last (m :: l)) = default m (last l).
Proof.
  revert c m. induction l as [|q l IH]; intros c m; [reflexivity|].
  change (last (m :: q :: l)) with (last (q :: l)).
  rewrite (IH c q), (IH m q). reflexivity.
Qed.

Lemma selector_moves_release (p c : RegionSelector.QPoint) (vis : bool)
    (moves : list RegionSelector.QPoint) :
  RegionSelector.handle_all normalized
    {| RegionSelector._origin := Some p; RegionSelector._current := Some c;
       RegionSelector.shown := vis |}
    ((RegionSelector.MouseMove <$> moves)
     ++ [RegionSelector.MouseRelease RegionSelector.LeftButton])
  = Return
      ({| RegionSelector._origin := Some p;
          RegionSelector._current := Some (default c (last moves));
          RegionSelector.shown := false |},
       if bool_decide
            (RegionSelector.rwidth (normalized p (default c (last moves))) > 5
             ∧ RegionSelector.rheight (normalized p (default c (last moves))) > 5)%Z
       then [(RegionSelector.rx (normalized p (default c (last moves))),
              RegionSelector.ry (normalized p (default c (last moves))),
              RegionSelector.rwidth (normalized p (default c (last moves))),
              RegionSelector.rheight (normalized p (default c (last moves))))]
       else []).
Proof.
  revert c. induction moves as [|m moves IH]; intros c.
  - cbn. destruct (bool_decide _); reflexivity.
  - cbn [fmap list_fmap app RegionSelector.handle_all RegionSelector.handle
         RegionSelector.mouseMoveEvent RegionSelector._origin
         RegionSelector._current RegionSelector.shown mbind result_bind].
    rewrite (IH m). cbn.
    rewrite (default_last_cons c m moves).
    destruct (bool_decide _); reflexivity.
Qed.

(** The region of a drag: a left press at [p], moves, and a left release
    close the widget and emit the normalized rectangle from [p] to the last
    point moved to ([p] itself without a move) when that rectangle is more
    than 5 wide and high; otherwise they emit nothing. *)
Theorem selector_drag (self : RegionSelector.t)
    (p : RegionSelector.QPoint) (moves : list RegionSelector.QPoint) :
  let q := default p (last moves) in
  let rect := normalized p q in
  RegionSelector.handle_all normalized self
    (RegionSelector.MousePress RegionSelector.LeftButton p
       :: (RegionSelector.MouseMove <$> moves)
       ++ [RegionSelector.MouseRelease RegionSelector.LeftButton])
  = Return
      ({| RegionSelector._origin := Some p; RegionSelector._current := Some q;
          RegionSelector.shown := false |},
       if bool_decide (RegionSelector.rwidth rect > 5
                       ∧ RegionSelector.rheight rect > 5)%Z
       then [(RegionSelector.rx rect, RegionSelector.ry rect,
              RegionSelector.rwidth rect, RegionSelector.rheight rect)]
       else []).
Proof.
  intros q rect. subst q rect.
  cbn [RegionSelector.handle_all RegionSelector.handle
       RegionSelector.mousePressEvent mbind result_bind].
  rewrite selector_moves_release. cbn.
  destruct (bool_decide _); reflexivity.
Qed.

(** Without a release of the left button nothing is emitted; and the
    Escape key closes the widget. *)
Theorem selector_cancel (evs : list RegionSelector.event)
    (self : RegionSelector.t) :
  RegionSelector.MouseRelease RegionSelector.LeftButton ∉ evs →
  ∃ self',
    RegionSelector.handle_all normalized self
      (evs ++ [RegionSelector.KeyPress RegionSelector.Key_Escape])
    = Return (self', [])
    ∧ RegionSelector.shown self' = false.
Proof.
  revert self. induction evs as [|ev evs IH]; intros self Hno.
  - eexists. split; reflexivity.
  - apply not_elem_of_cons in Hno as [Hne Hno].
    destruct (IH
      (match ev with
       | RegionSelector.Start => RegionSelector.start self
       | RegionSelector.MousePress b pos =>
           RegionSelector.mousePressEvent b pos self
       | RegionSelector.MouseMove pos => RegionSelector.mouseMoveEvent pos self
       | RegionSelector.MouseRelease _ => self
       | RegionSelector.KeyPress k => RegionSelector.keyPressEvent k self
       end) Hno) as (self' & Hrun & Hshown).
    exists self'. split; [|exact Hshown].
    cbn [app RegionSelector.handle_all].
    destruct ev as [|b pos|pos|b|k]; cbn [RegionSelector.handle mbind result_bind];
      try (rewrite Hrun; reflexivity).
    destruct b; [congruence| |];
      unfold RegionSelector.mouseReleaseEvent; cbn; rewrite Hrun; reflexivity.
Qed.

End SelectorExtras.

Section SelectorAppExtras.
Context `{Runtime}.
Variable normalized :
  RegionSelector.QPoint → RegionSelector.QPoint → RegionSelector.QRect.

(** The selector wired to the application: after the regions a selection
    session emits have reached [_on_region_selected], the region of the
    application is the one it had, or a region more than 5 pixels wide and
    high. *)
Theorem selected_region_is_large (evs : list RegionSelector.event)
    (app : App.t) :
  ∃ selector emitted,
    RegionSelector.handle_all normalized RegionSelector.__init__ evs
    = Return (selector, emitted)
    ∧ let app' := App.handle_all app (RegionSelector.deliver emitted) in
      App._region app' = App._region app
      ∨ ∃ x y w h, App._region app' = Some (x, y, w, h) ∧ (w > 5 ∧ h > 5)%Z.
Proof.
  destruct (selector_emits_large_regions_aux normalized evs)
    as (selector & emitted & Hrun & Hbig).
  exists selector, emitted. split; [exact Hrun|]. cbn zeta.
  destruct (handle_all_region (RegionSelector.deliver emitted) app) as [-> _].
  unfold latest_region.
  assert (region_updates (RegionSelector.deliver emitted) = emitted) as ->.
  { unfold region_updates, RegionSelector.deliver. clear.
    induction emitted as [|[[[x y] w] h] l IH]; [reflexivity|].
    cbn. f_equal. exact IH. }
  destruct (last emitted) as [[[[x y] w] h]|] eqn:Hlast; [|left; reflexivity].
  right. exists x, y, w, h. split; [reflexivity|].
  apply last_Some in Hlast as [l' ->].
  apply Forall_app in Hbig as [_ Hbig].
  apply Forall_cons in Hbig as [Hbig _]. exact Hbig.
Qed.

End SelectorAppExtras.

Example selector_drag_sample :
  RegionSelector.handle_all sample_normalized RegionSelector.__init__
    [RegionSelector.Start;
     RegionSelector.MousePress RegionSelector.LeftButton
       {| RegionSelector.px := 100; RegionSelector.py := 50 |};
     RegionSelector.MouseMove {| RegionSelector.px := 40; RegionSelector.py := 80 |};
     RegionSelector.MouseMove {| RegionSelector.px := 20; RegionSelector.py := 90 |};
     RegionSelector.MouseRelease RegionSelector.LeftButton]
  = Return ({| RegionSelector._origin :=
                 Some {| RegionSelector.px := 100; RegionSelector.py := 50 |};
               RegionSelector._current :=
                 Some {| RegionSelector.px := 20; RegionSelector.py := 90 |};
               RegionSelector.shown := false |},
            [(21, 50, 79, 41)]).
Proof. reflexivity. Qed.

Lemma selector_cancel_witness :
  ∃ self',
    RegionSelector.handle_all sample_normalized RegionSelector.__init__
      ([RegionSelector.Start;
        RegionSelector.MousePress RegionSelector.LeftButton
          {| RegionSelector.px := 1; RegionSelector.py := 2 |};
        RegionSelector.MouseMove
          {| RegionSelector.px := 300; RegionSelector.py := 200 |}]
       ++ [RegionSelector.KeyPress RegionSelector.Key_Escape])
    = Return (self', [])
    ∧ RegionSelector.shown self' = false.
Proof.
  apply (selector_cancel sample_normalized
           [RegionSelector.Start;
            RegionSelector.MousePress RegionSelector.LeftButton
              {| RegionSelector.px := 1; RegionSelector.py := 2 |};
            RegionSelector.MouseMove
              {| RegionSelector.px := 300; RegionSelector.py := 200 |}]
           RegionSelector.__init__).
  rewrite !not_elem_of_cons. repeat split; try discriminate.
  apply not_elem_of_nil.
Defined.

(** ** The hotkey manager *)

Section HotkeyExtras.
Context {H : Type}.
Implicit Types (config : HotkeyManager.hotkeys) (self : HotkeyManager.t H)
  (world : HotkeyManager.listeners H).

Lemma bindings_lookup config (on_scan on_toggle on_region on_quit : H)
    (k : string) :
  HotkeyManager._bindings
    (HotkeyManager.__init__ config on_scan on_toggle on_region on_quit) !! k
  = if decide (HotkeyManager.HOTKEY_QUIT config = k) then Some on_quit
    else if decide (HotkeyManager.HOTKEY_REGION config = k) then Some on_region
    else if decide (HotkeyManager.HOTKEY_TOGGLE config = k) then Some on_toggle
    else if decide (HotkeyManager.HOTKEY_SCAN config = k) then Some on_scan
    else None.
Proof.
  unfold HotkeyManager.__init__, HotkeyManager.dict_display. cbn.
  rewrite !lookup_insert, lookup_empty. reflexivity.
Qed.

(** When hotkeys collide, the later entry of the bindings wins: the quit
    hotkey always quits, and a hotkey configured equal to a later one of
    toggle, region, quit loses its own callback.  No other key is bound. *)
Theorem bindings_later_entry_wins config
    (on_scan on_toggle on_region on_quit : H) :
  let scan := HotkeyManager.HOTKEY_SCAN config in
  let toggle := HotkeyManager.HOTKEY_TOGGLE config in
  let region := HotkeyManager.HOTKEY_REGION config in
  let quit := HotkeyManager.HOTKEY_QUIT config in
  let bindings :=
    HotkeyManager._bindings
      (HotkeyManager.__init__ config on_scan on_toggle on_region on_quit) in
  bindings !! quit = Some on_quit
  ∧ bindings !! region
    = Some (if decide (region = quit) then on_quit else on_region)
  ∧ bindings !! toggle
    = Some (if decide (toggle = quit) then on_quit
            else if decide (toggle = region) then on_region else on_toggle)
  ∧ bindings !! scan
    = Some (if decide (scan = quit) then on_quit
            else if decide (scan = region) then on_region
            else if decide (scan = toggle) then on_toggle else on_scan)
  ∧ ∀ k, k ≠ scan → k ≠ toggle → k ≠ region → k ≠ quit → bindings !! k = None.
Proof.
  intros scan toggle region quit bindings.
  subst scan toggle region quit bindings.
  repeat split; intros; rewrite bindings_lookup;
    repeat case_decide; congruence.
Qed.

(** With four different hotkey strings, as the defaults are, every hotkey
    is bound to its own callback and there are exactly four bindings. *)
Theorem bindings_distinct_hotkeys config
    (on_scan on_toggle on_region on_quit : H) :
  NoDup [HotkeyManager.HOTKEY_SCAN config; HotkeyManager.HOTKEY_TOGGLE config;
         HotkeyManager.HOTKEY_REGION config; HotkeyManager.HOTKEY_QUIT config] →
  let bindings :=
    HotkeyManager._bindings
      (HotkeyManager.__init__ config on_scan on_toggle on_region on_quit) in
  bindings !! HotkeyManager.HOTKEY_SCAN config = Some on_scan
  ∧ bindings !! HotkeyManager.HOTKEY_TOGGLE config = Some on_toggle
  ∧ bindings !! HotkeyManager.HOTKEY_REGION config = Some on_region
  ∧ bindings !! HotkeyManager.HOTKEY_QUIT config = Some on_quit
  ∧ size bindings = 4%nat.
Proof.
  intros Hnodup bindings. subst bindings.
  apply NoDup_cons in Hnodup as [Hs Hnodup].
  apply NoDup_cons in Hnodup as [Ht Hnodup].
  apply NoDup_cons in Hnodup as [Hr _].
  apply not_elem_of_cons in Hs as [Hst Hs].
  apply not_elem_of_cons in Hs as [Hsr Hs].
  apply not_elem_of_cons in Hs as [Hsq _].
  apply not_elem_of_cons in Ht as [Htr Ht].
  apply not_elem_of_cons in Ht as [Htq _].
  apply not_elem_of_cons in Hr as [Hrq _].
  repeat split; try (rewrite bindings_lookup; repeat case_decide; congruence).
  unfold HotkeyManager.__init__, HotkeyManager.dict_display. cbn.
  rewrite !map_size_insert_None, map_size_empty; [reflexivity|..];
    rewrite ?lookup_insert, ?lookup_empty; repeat case_decide; congruence.
Qed.

(** [stop] without a listener changes nothing, so stopping twice is
    stopping once; and [start] followed by [stop] leaves the listeners
    that were running before, none of them this manager's. *)
Theorem start_stop_restores self world :
  (∀ id, is_Some (HotkeyManager.running world !! id) →
         (id < HotkeyManager.created world)%nat) →
  let '(started, world1) := HotkeyManager.start self world in
  let '(stopped, world2) := HotkeyManager.stop started world1 in
  HotkeyManager.running world1 !! HotkeyManager.created world
  = Some (HotkeyManager._bindings self)
  ∧ HotkeyManager.running world2 = HotkeyManager.running world
  ∧ HotkeyManager._listener stopped = None
  ∧ HotkeyManager.stop stopped world2 = (stopped, world2).
Proof.
  intros Hfresh. unfold HotkeyManager.start, HotkeyManager.stop. cbn.
  split; [apply lookup_insert_eq|]. split; [|split; reflexivity].
  rewrite delete_insert_eq. apply delete_id.
  destruct (HotkeyManager.running world !! HotkeyManager.created world) eqn:E;
    [|reflexivity].
  specialize (Hfresh _ (mk_is_Some _ _ E)). lia.
Qed.

(** [start] does not stop a listener already started: after two starts
    and one stop, the first listener is still running on the bindings and
    the manager no longer refers to it, so no further [stop] ends it. *)
Theorem second_start_leaks_listener self world :
  let '(started, world1) := HotkeyManager.start self world in
  let '(restarted, world2) := HotkeyManager.start started world1 in
  let '(stopped, world3) := HotkeyManager.stop restarted world2 in
  HotkeyManager.running world3 !! HotkeyManager.created world
  = Some (HotkeyManager._bindings self)
  ∧ HotkeyManager.running world3 !! S (HotkeyManager.created world) = None
  ∧ HotkeyManager.stop stopped world3 = (stopped, world3).
Proof.
  unfold HotkeyManager.start, HotkeyManager.stop. cbn.
  split; [|split; [apply lookup_delete_eq|reflexivity]].
  rewrite lookup_delete_ne by lia.
  rewrite lookup_insert_ne by lia. apply lookup_insert_eq.
Qed.

End HotkeyExtras.

Example default_hotkeys_distinct :
  NoDup [HotkeyManager.HOTKEY_SCAN (HotkeyManager.load_hotkeys ∅);
         HotkeyManager.HOTKEY_TOGGLE (HotkeyManager.load_hotkeys ∅);
         HotkeyManager.HOTKEY_REGION (HotkeyManager.load_hotkeys ∅);
         HotkeyManager.HOTKEY_QUIT (HotkeyManager.load_hotkeys ∅)].
Proof.
  cbn. repeat (apply NoDup_cons; split;
               [rewrite ?not_elem_of_cons; repeat split; try discriminate;
                apply not_elem_of_nil|]).
  apply NoDup_nil. constructor.
Qed.

Lemma bindings_distinct_hotkeys_witness :
  let bindings :=
    HotkeyManager._bindings
      (HotkeyManager.__init__ (HotkeyManager.load_hotkeys ∅)
         "scan" "toggle" "region" "quit") in
  bindings !! "<ctrl>+<shift>+s" = Some "scan"
  ∧ bindings !! "<ctrl>+<shift>+h" = Some "toggle"
  ∧ bindings !! "<ctrl>+<shift>+r" = Some "region"
  ∧ bindings !! "<ctrl>+<shift>+q" = Some "quit"
  ∧ size bindings = 4%nat.
Proof.
  exact (bindings_distinct_hotkeys (HotkeyManager.load_hotkeys ∅)
           "scan" "toggle" "region" "quit" default_hotkeys_distinct).
Defined.

Lemma start_stop_restores_witness :
  let world : HotkeyManager.listeners string :=
    {| HotkeyManager.created := 0; HotkeyManager.running := ∅ |} in
  let self := HotkeyManager.__init__ (HotkeyManager.load_hotkeys ∅)
                "scan" "toggle" "region" "quit" in
  HotkeyManager.running
    (HotkeyManager.stop (HotkeyManager.start self world).1
       (HotkeyManager.start self world).2).2 = ∅.
Proof.
  intros world self.
  pose proof (start_stop_restores self world) as Hr.
  cbn in Hr. apply Hr.
  intros id [x Hx]. rewrite lookup_empty in Hx. discriminate.
Defined.

Lemma bindings_later_entry_wins_witness :
  let config :=
    HotkeyManager.load_hotkeys {[ "HOTKEY_QUIT" := "<ctrl>+<shift>+s" ]} in
  let bindings :=
    HotkeyManager._bindings
      (HotkeyManager.__init__ config "scan" "toggle" "region" "quit") in
  bindings !! "<ctrl>+<shift>+s" = Some "quit"
  ∧ bindings !! "<ctrl>+<alt>+x" = None.
Proof.
  intros config bindings.
  pose proof (bindings_later_entry_wins config "scan" "toggle" "region" "quit")
    as (_ & _ & _ & Hscan & Hother).
  split; [exact Hscan|].
  apply Hother; discriminate.
Defined.

(** ** The OCR engine *)

Section OcrExtras.
Context {reader image : Type}.
Implicit Types (libs : OCREngine.libraries reader image)
  (self : OCREngine.t reader) (built : list (list string)).

(** Once the engine holds a reader, extractions construct nothing. *)
Lemma extract_all_with_reader libs (images : list image) self built
    (r : reader) :
  OCREngine._reader self = Some r →
  ∃ results,
    OCREngine.extract_all libs images self built = (results, self, built)
    ∧ length results = length images.
Proof.
  intros Hr. induction images as [|img images IH].
  - exists []. split; reflexivity.
  - destruct IH as (results & IH & Hlen).
    cbn [OCREngine.extract_all].
    unfold OCREngine.extract_text, OCREngine._get_reader. rewrite Hr.
    rewrite IH. eexists. split; [reflexivity|]. cbn. rewrite Hlen. reflexivity.
Qed.

(** The reader is constructed lazily and once: when easyocr imports and
    the construction succeeds, any number of extractions (at least one)
    on a new engine construct exactly one reader, with the languages given
    or English and Vietnamese when none or an empty list was given, and
    the engine keeps it, even if reading an image fails. *)
Theorem reader_built_once libs (languages : option (list string))
    (images : list image) built (r : reader) :
  let langs := match languages with
               | Some (l :: ls) => l :: ls
               | _ => ["en"; "vi"]
               end in
  OCREngine.import_easyocr libs = Return () →
  OCREngine.Reader libs langs = Return r →
  images ≠ [] →
  ∃ results,
    OCREngine.extract_all libs images (OCREngine.__init__ languages) built
    = (results,
       {| OCREngine._languages := langs; OCREngine._reader := Some r |},
       (built ++ [langs])%list)
    ∧ length results = length images.
Proof.
  intros langs Himport Hreader Hne.
  assert (OCREngine._languages (OCREngine.__init__ (reader := reader) languages)
          = langs) as Hlangs
    by (subst langs; destruct languages as [[|l ls]|]; reflexivity).
  destruct images as [|img images]; [congruence|].
  cbn [OCREngine.extract_all].
  unfold OCREngine.extract_text at 1. unfold OCREngine._get_reader.
  replace (OCREngine._reader (OCREngine.__init__ languages))
    with (@None reader) by reflexivity.
  rewrite Himport, Hlangs, Hreader.
  destruct (extract_all_with_reader libs images
              {| OCREngine._languages := langs; OCREngine._reader := Some r |}
              (built ++ [langs])%list r eq_refl) as (results & -> & Hlen).
  eexists. split; [reflexivity|]. cbn. rewrite Hlen. reflexivity.
Qed.

(** Without easyocr every extraction raises the [ImportError] with the
    install hint; no reader is constructed and the engine stays without
    one, so a later extraction tries the import again. *)
Theorem missing_easyocr_reported libs (languages : option (list string))
    (images : list image) built (e : exn) :
  OCREngine.import_easyocr libs = Raise e →
  OCREngine.is_import_error (exn_cls e) = true →
  OCREngine.extract_all libs images (OCREngine.__init__ languages) built
  = (replicate (length images) (Raise OCREngine.MISSING_EASYOCR),
     OCREngine.__init__ languages, built).
Proof.
  intros Himport Hcls. induction images as [|img images IH]; [reflexivity|].
  cbn [OCREngine.extract_all].
  unfold OCREngine.extract_text at 1. unfold OCREngine._get_reader.
  cbn [OCREngine._reader OCREngine.__init__]. rewrite Himport, Hcls.
  fold (OCREngine.__init__ (reader := reader) languages).
  rewrite IH. reflexivity.
Qed.

(** A construction that fails with another exception is not remembered:
    the exception leaves [extract_text] unchanged, and every further
    extraction constructs a reader again. *)
Theorem reader_failure_retried libs (languages : option (list string))
    (images : list image) built (e : exn) :
  let engine := OCREngine.__init__ (reader := reader) languages in
  OCREngine.import_easyocr libs = Return () →
  OCREngine.Reader libs (OCREngine._languages engine) = Raise e →
  OCREngine.is_import_error (exn_cls e) = false →
  OCREngine.extract_all libs images engine built
  = (replicate (length images) (Raise e), engine,
     (built ++ replicate (length images) (OCREngine._languages engine))%list).
Proof.
  intros engine Himport Hreader Hcls. revert built.
  induction images as [|img images IH]; intros built.
  - cbn. rewrite app_nil_r. reflexivity.
  - cbn [OCREngine.extract_all].
    unfold OCREngine.extract_text at 1. unfold OCREngine._get_reader.
    replace (OCREngine._reader engine) with (@None reader) by reflexivity.
    rewrite Himport, Hreader, Hcls. rewrite IH.
    cbn [length replicate]. rewrite <- app_assoc. reflexivity.
Qed.

End OcrExtras.

Lemma reader_built_once_witness :
  ∃ results,
    OCREngine.extract_all ocr_host ["page one"; EmptyString; "page three"]
      (OCREngine.__init__ (Some [])) []
    = (results,
       {| OCREngine._languages := ["en"; "vi"]; OCREngine._reader := Some 2%nat |},
       [["en"; "vi"]])
    ∧ length results = 3%nat.
Proof.
  apply (reader_built_once ocr_host (Some [])
           ["page one"; EmptyString; "page three"] [] 2%nat eq_refl eq_refl).
  discriminate.
Defined.

Lemma missing_easyocr_reported_witness :
  OCREngine.extract_all ocr_host_without_easyocr ["page one"; "page two"]
    (OCREngine.__init__ None) []
  = ([Raise OCREngine.MISSING_EASYOCR; Raise OCREngine.MISSING_EASYOCR],
     OCREngine.__init__ None, []).
Proof.
  exact (missing_easyocr_reported ocr_host_without_easyocr None
           ["page one"; "page two"] [] no_easyocr eq_refl eq_refl).
Defined.

Lemma reader_failure_retried_witness :
  OCREngine.extract_all ocr_host_without_models ["page one"; "page two"]
    (OCREngine.__init__ (Some ["de"])) []
  = ([Raise download_failed; Raise download_failed],
     OCREngine.__init__ (Some ["de"]), [["de"]; ["de"]]).
Proof.
  exact (reader_failure_retried ocr_host_without_models (Some ["de"])
           ["page one"; "page two"] [] download_failed
           eq_refl eq_refl eq_refl).
Defined.

(** ** Lines and line feeds *)

Lemma str_split_no_sep (sep : Ascii.ascii) (p : string) :
  count_char sep p = 0%nat → str_split sep p = [p].
Proof.
  induction p as [|c p IH]; [reflexivity|].
  cbn [count_char str_split].
  destruct (Ascii.eqb c sep); [discriminate|].
  intros Hp. rewrite (IH Hp). reflexivity.
Qed.

Lemma str_split_app_sep (sep : Ascii.ascii) (p rest : string) :
  count_char sep p = 0%nat →
  str_split sep (p ++ String sep rest) = p :: str_split sep rest.
Proof.
  induction p as [|c p IH].
  - intros _. change (EmptyString ++ String sep rest) with (String sep rest).
    cbn [str_split]. rewrite Ascii.eqb_refl. reflexivity.
  - cbn [count_char]. intros Hp.
    change (String c p ++ String sep rest)
      with (String c (p ++ String sep rest)).
    cbn [str_split].
    destruct (Ascii.eqb c sep); [discriminate|].
    rewrite (IH Hp). reflexivity.
Qed.

Lemma str_split_join (sep : Ascii.ascii) (lines : list string) :
  lines ≠ [] →
  Forall (fun line => count_char sep line = 0%nat) lines →
  str_split sep (str_join sep lines) = lines.
Proof.
  induction lines as [|p lines IH]; [congruence|].
  intros _ Hall. apply Forall_cons in Hall as [Hp Hall].
  destruct lines as [|q lines].
  - cbn. apply str_split_no_sep. exact Hp.
  - change (str_join sep (p :: q :: lines))
      with (p ++ String sep (str_join sep (q :: lines))).
    rewrite (str_split_app_sep _ _ _ Hp).
    rewrite IH by (try discriminate; exact Hall). reflexivity.
Qed.

Section OcrTextExtras.
Context {reader image : Type}.

(** The text of an extraction is the paragraphs read, one per line: when
    the reader returns at least one paragraph and none contains a line
    feed, splitting the text at the line feeds gives the paragraphs back.
    The engine and the readers constructed are unchanged. *)
Theorem extract_text_lines
    (libs : OCREngine.libraries reader image) (self : OCREngine.t reader)
    (built : list (list string)) (r : reader) (image_ : image)
    (paragraphs : list string) :
  OCREngine._reader self = Some r →
  OCREngine.import_numpy libs = Return () →
  OCREngine.readtext libs r image_ = Return paragraphs →
  paragraphs ≠ [] →
  Forall (fun p => count_char "010"%char p = 0%nat) paragraphs →
  ∃ text,
    OCREngine.extract_text libs image_ self built = (Return text, self, built)
    ∧ str_split "010"%char text = paragraphs.
Proof.
  intros Hr Hnumpy Hread Hne Hall.
  unfold OCREngine.extract_text, OCREngine._get_reader.
  rewrite Hr, Hnumpy. cbn. rewrite Hread. cbn.
  eexists. split; [reflexivity|]. apply str_split_join; assumption.
Qed.

End OcrTextExtras.

Lemma extract_text_lines_witness :
  ∃ text,
    OCREngine.extract_text ocr_host "first paragraph"
      {| OCREngine._languages := ["en"; "vi"]; OCREngine._reader := Some 2%nat |}
      [["en"; "vi"]]
    = (Return text,
       {| OCREngine._languages := ["en"; "vi"]; OCREngine._reader := Some 2%nat |},
       [["en"; "vi"]])
    ∧ str_split "010"%char text = ["first paragraph"; "second paragraph"].
Proof.
  apply (extract_text_lines ocr_host
           {| OCREngine._languages := ["en"; "vi"];
              OCREngine._reader := Some 2%nat |}
           [["en"; "vi"]] 2%nat "first paragraph"
           ["first paragraph"; "second paragraph"] eq_refl eq_refl eq_refl).
  - discriminate.
  - repeat constructor.
Defined.

(** ** Text mode and a whole run *)

Section RunExtras.
Context `{Runtime}.

(** Text mode differs from vision mode in the messages only:
    [answer_from_text] is the call on the text prompt of the extracted
    text, so it sends one request to the same endpoint with the same
    headers, timeout, model and sampling parameters. *)
Theorem answer_from_text_request (self : GitHubAIClient.t) (net : transport)
    (extracted_text image : string) (sent : list Request) :
  ∃ (req vision : Request) (payload vision_payload : gmap string value),
    snd (GitHubAIClient.answer_from_text self net extracted_text sent)
    = (sent ++ [req])%list
    ∧ snd (GitHubAIClient.answer_from_screenshot self net image sent)
      = (sent ++ [vision])%list
    ∧ req_json req = VDict payload
    ∧ req_json vision = VDict vision_payload
    ∧ payload !! "messages"
      = Some (PromptBuilder.build_text_messages extracted_text None)
    ∧ delete "messages" payload = delete "messages" vision_payload
    ∧ req_url req = req_url vision
    ∧ req_headers req = req_headers vision
    ∧ req_timeout req = req_timeout vision.
Proof.
  unfold GitHubAIClient.answer_from_text, GitHubAIClient.answer_from_screenshot.
  rewrite !call_posts_once.
  eexists _, _, _, _. split; [reflexivity|]. split; [reflexivity|].
  split; [reflexivity|]. split; [reflexivity|]. split; [reflexivity|].
  split; [|repeat split].
  apply map_eq. intros k.
  rewrite !lookup_delete. case_decide; [reflexivity|].
  rewrite !list_to_map_cons, !list_to_map_nil, !lookup_insert.
  repeat case_decide; try congruence; reflexivity.
Qed.

(** The one run of a process: while [self._thread] is [None], a trigger
    whose capture succeeds and the completion of its worker make, in
    order, [hide], the grab, [show_loading] if the overlay was visible, the
    thread start, one request carrying the screenshot just taken, and one
    terminal [show_result] or [show_error]; the overlay is then visible.
    The pipeline does not return to its first state: [self._thread] refers
    to the deleted thread, and the next trigger whose capture succeeds
    ends in the uncaught [RuntimeError] of the guard, with no worker
    started. *)
Theorem run_ends_with_deleted_thread (screen screen' : ScreenCapture.platform)
    (net : transport) (self : App.t) (m : ScreenCapture.monitor)
    (b64 b64' : string) :
  App._thread self = None →
  ScreenCapture._build_monitor (App._capture self) (App._region self)
  = Return m →
  screen m = Return b64 →
  screen' m = Return b64' →
  let done :=
    App.handle_all self [App.HotkeyScan screen; App.WorkerCompletes net] in
  (∃ terminal : call,
     App.new_calls self done
     = (Hide :: Grab m
          :: (if OverlayWindow.isVisible (App._overlay self)
              then [ShowLoading] else [])
          ++ [ThreadStart b64;
              Post (request_of (App._ai_client self)
                      (PromptBuilder.build_vision_messages b64 None));
              terminal])%list
     ∧ (is_show_error terminal = true
        ∨ ∃ answer, terminal = ShowResult answer))
  ∧ OverlayWindow.isVisible (App._overlay done) = true
  ∧ App._thread done = Some {| App.isRunning := false |}
  ∧ App.new_calls done (App._trigger_scan screen' done)
    = [Hide; Grab m; ShowLoading; Uncaught App.THREAD_DELETED].
Proof.
  intros Hnone Hmon Hscreen Hscreen' done. subst done.
  cbn [App.handle_all foldl App.handle].
  pose proof (trigger_scan_effect screen self) as Heff. cbn zeta in Heff.
  pose proof (trigger_scan_calls screen self) as Hcalls.
  pose proof (trigger_scan_static screen self) as (Hreg & Hcap & _).
  unfold trigger_calls in Hcalls.
  unfold ScreenCapture.capture_as_base64 in Heff, Hcalls.
  rewrite Hmon, Hscreen in Heff, Hcalls. cbn in Heff.
  rewrite Hnone in Heff, Hcalls. destruct Heff as [[Hth Hwk] _].
  destruct (worker_completes_running net _ _ Hth Hwk)
    as (Hth' & _ & Hreg' & Hdone).
  destruct (worker_completes_static net (App._trigger_scan screen self))
    as [_ Hcap'].
  cbn [AIWorker._client AIWorker._image] in Hdone.
  assert (OverlayWindow.isVisible
            (App._overlay (App.worker_completes net
                             (App._trigger_scan screen self))) = true) as Hvis.
  { destruct (fst (AIWorker.run _ net [])) as [answer|message];
      destruct Hdone as [_ ->].
    - unfold OverlayWindow.show_result, OverlayWindow.set_label.
      destruct (OverlayWindow.visible _); reflexivity.
    - unfold OverlayWindow.show_error, OverlayWindow.set_label.
      destruct (OverlayWindow.visible _); reflexivity. }
  split; [|split; [exact Hvis|split; [exact Hth'|]]].
  - unfold App.new_calls.
    destruct (fst (AIWorker.run _ net [])) as [answer|message];
      destruct Hdone as [-> _]; rewrite Hcalls, <- app_assoc, drop_app_length;
      eexists; (split; [cbn; rewrite <- ?app_assoc; reflexivity|]).
    + right. eauto.
    + left. reflexivity.
  - rewrite new_calls_trigger_scan. unfold trigger_calls.
    unfold ScreenCapture.capture_as_base64.
    rewrite Hcap', Hcap, Hreg', Hreg, Hmon, Hscreen', Hvis, Hth'. reflexivity.
Qed.

End RunExtras.

Lemma run_ends_with_deleted_thread_witness :
  let done :=
    @App.handle_all Sample.runtime app0
      [App.HotkeyScan screen_ok;
       App.WorkerCompletes (fun _ => Return response_42)] in
  (∃ terminal : call,
     App.new_calls app0 done
     = [Hide; Grab primary; ShowLoading; ThreadStart "iVBORw0KGgo=";
        Post (request_of client0
                (PromptBuilder.build_vision_messages "iVBORw0KGgo=" None));
        terminal]
     ∧ (is_show_error terminal = true ∨ ∃ answer, terminal = ShowResult answer))
  ∧ OverlayWindow.isVisible (App._overlay done) = true
  ∧ App._thread done = Some {| App.isRunning := false |}
  ∧ App.new_calls done (@App._trigger_scan Sample.runtime screen_ok done)
    = [Hide; Grab primary; ShowLoading; Uncaught App.THREAD_DELETED].
Proof.
  exact (@run_ends_with_deleted_thread Sample.runtime screen_ok screen_ok
           (fun _ => Return response_42) app0 primary
           "iVBORw0KGgo=" "iVBORw0KGgo=" eq_refl eq_refl eq_refl eq_refl).
Defined.

(** C8 after a completed run: a trigger whose capture raises still shows
    exactly one error and posts nothing, but the pipeline is not able to
    accept the next trigger.  [self._thread] refers to the thread that
    [deleteLater] has deleted, so the next trigger, whose capture
    succeeds, ends in the uncaught [RuntimeError] of the guard in
    [_start_worker] and starts no worker. *)
Lemma capture_failure_after_completed_run :
  let failed := @App._trigger_scan Sample.runtime screen_fails after_run in
  let next := @App._trigger_scan Sample.runtime screen_ok failed in
  App.calls after_run
  = [Show; Hide; Grab primary; ShowLoading; ThreadStart "iVBORw0KGgo=";
     Post (request_of client0
             (PromptBuilder.build_vision_messages "iVBORw0KGgo=" None));
     ShowResult "42"]
  ∧ List.filter is_show_error (App.new_calls after_run failed)
    = [ShowError ("Screen capture failed: XGetImage() failed" ++ LF
                  ++ "Traceback (most recent call last): XGetImage() failed")]
  ∧ List.filter is_post (App.new_calls after_run failed) = []
  ∧ App.new_calls failed next
    = [Hide; Grab primary; ShowLoading; Uncaught App.THREAD_DELETED]
  ∧ List.filter is_thread_start (App.new_calls failed next) = []
  ∧ App.in_flight next = false.
Proof. repeat split. Qed.

Lemma trigger_after_completed_run_witness :
  App.new_calls after_run (@App._trigger_scan Sample.runtime screen_ok after_run)
  = [Hide; Grab primary; ShowLoading; Uncaught App.THREAD_DELETED]
  ∧ App._thread (@App._trigger_scan Sample.runtime screen_ok after_run)
    = Some {| App.isRunning := false |}.
Proof.
  pose proof (@trigger_after_completed_run Sample.runtime screen_ok after_run
                primary "iVBORw0KGgo=" eq_refl eq_refl eq_refl)
    as (Hcalls & Hthread & _).
  split; [exact Hcalls|exact Hthread].
Defined.
